(** * Incremental file ingestion with a processed-file ledger

    Shallow embedding of [read_gcs_files_to_dataframes_aserta]
    (cloudrun/api_plantilla/Tools.py) and the properties of its ledger
    bookkeeping.

    Conventions of the embedding.
    - A Python [str] is a Rocq [string]; every [ascii] stands for one code
      point below 256.  Object contents (bytes or text) are strings too.
    - A blob is represented by its full object name.
    - The bucket is an association list of (object name, content) in the
      order in which [list_blobs] enumerates it.
    - The collaborators that may raise (storage client, pandas readers) take
      their behaviour from an environment record [Env]; the routine itself is
      written in a small monad carrying the bucket, the outcome (value or
      exception) and the trace of storage calls. *)

From Stdlib Require Import String Ascii List ZArith Lia Bool.
From Stdlib Require DecimalString DecimalZ DecimalPos.
From stdpp Require Import base option list gmap strings.

Local Open Scope list_scope.

(* ===================================================================== *)
(** ** Python string primitives *)
(* ===================================================================== *)

Module PyStr.

(** [str.isspace] on one code point below 256: TAB..CR, FS..US, SPACE,
    NEL (0x85) and NBSP (0xA0). *)
Definition is_space (c : ascii) : bool :=
  let n := nat_of_ascii c in
  (((9 <=? n) && (n <=? 13)) || ((28 <=? n) && (n <=? 32))
  || (n =? 133) || (n =? 160))%nat.

Fixpoint lstrip (s : string) : string :=
  match s with
  | EmptyString => EmptyString
  | String c s' => if is_space c then lstrip s' else s
  end.

Fixpoint rstrip (s : string) : string :=
  match s with
  | EmptyString => EmptyString
  | String c s' =>
      match rstrip s' with
      | EmptyString => if is_space c then EmptyString else String c EmptyString
      | r => String c r
      end
  end.

(** [s.strip()] *)
Definition strip (s : string) : string := rstrip (lstrip s).

(** [s.split(sep)] for a one-character separator: never the empty list. *)
Fixpoint split (sep : ascii) (s : string) : list string :=
  match s with
  | EmptyString => [EmptyString]
  | String c s' =>
      if Ascii.eqb c sep then EmptyString :: split sep s'
      else match split sep s' with
           | h :: t => String c h :: t
           | [] => [String c EmptyString]
           end
  end.

(** [sep.join(l)] *)
Fixpoint join (sep : string) (l : list string) : string :=
  match l with
  | [] => EmptyString
  | [x] => x
  | x :: l' => x +:+ sep +:+ join sep l'
  end.

(** [s.startswith(p)] *)
Fixpoint startswith (s p : string) : bool :=
  match p, s with
  | EmptyString, _ => true
  | String _ _, EmptyString => false
  | String a p', String b s' => Ascii.eqb a b && startswith s' p'
  end.

(** [s.endswith(suf)]: some tail of [s] is [suf]. *)
Fixpoint endswith (s suf : string) : bool :=
  if String.eqb s suf then true
  else match s with
       | EmptyString => false
       | String _ s' => endswith s' suf
       end.

(** [s.replace(old, new)] for one-character [old] and [new]. *)
Fixpoint replace (old new : ascii) (s : string) : string :=
  match s with
  | EmptyString => EmptyString
  | String c s' => String (if Ascii.eqb c old then new else c) (replace old new s')
  end.

(** [c in s] for a character. *)
Fixpoint contains (c : ascii) (s : string) : bool :=
  match s with
  | EmptyString => false
  | String a s' => Ascii.eqb a c || contains c s'
  end.

(** Truthiness of a string. *)
Definition truthy (s : string) : bool :=
  match s with EmptyString => false | _ => true end.

(** [x in l] for a list of strings. *)
Definition mem (x : string) (l : list string) : bool :=
  existsb (String.eqb x) l.

(** [l.remove(x)]: drops the first occurrence; (Python raises when there
    is none, the only call site checks membership first). *)
Fixpoint remove (x : string) (l : list string) : list string :=
  match l with
  | [] => []
  | y :: l' => if String.eqb x y then l' else y :: remove x l'
  end.

(** [os.path.join(a, b)] (posixpath). *)
Definition os_path_join (a b : string) : string :=
  if startswith b "/" then b
  else if negb (truthy a) || endswith a "/" then a +:+ b
  else a +:+ "/" +:+ b.

(** [name.split("/")[-1]] *)
Definition basename (name : string) : string :=
  List.last (split "/"%char name) EmptyString.

End PyStr.

(* ===================================================================== *)
(** ** Tables *)
(* ===================================================================== *)

Inductive cell : Type :=
| Text (s : string)
| Number (z : Z).

(** A [DataFrame]: its column labels and its rows in index order; a row
    maps a column label to its cell, an absent label being a missing value. *)
Record DataFrame : Type := mkDataFrame {
  columns : list string;
  rows : list (gmap string cell)
}.

(** [pd.DataFrame()] *)
Definition pd_DataFrame : DataFrame := {| columns := []; rows := [] |}.

(** [df.empty]: some axis has length 0. *)
Definition df_empty (df : DataFrame) : bool :=
  match columns df, rows df with
  | _ :: _, _ :: _ => false
  | _, _ => true
  end.

(** [df[col] = v] for a scalar [v]. *)
Definition setitem (df : DataFrame) (col : string) (v : cell) : DataFrame :=
  {| columns := if PyStr.mem col (columns df) then columns df
                else columns df ++ [col];
     rows := (fun r => <[col := v]> r) <$> rows df |}.

(** Union of column labels in order of first appearance. *)
Definition add_columns (acc new : list string) : list string :=
  fold_left (fun a c => if PyStr.mem c a then a else a ++ [c]) new acc.

(** Outcome of a call that may raise. *)
Inductive result (A : Type) : Type :=
| Ok (a : A)
| Raise.
Arguments Ok {A} a.
Arguments Raise {A}.

(** [pd.concat(dfs, ignore_index=True)]; raises on an empty list. *)
Definition pd_concat (dfs : list DataFrame) : result DataFrame :=
  match dfs with
  | [] => Raise
  | _ => Ok {| columns := fold_left add_columns (columns <$> dfs) [];
               rows := concat (rows <$> dfs) |}
  end.

(* ===================================================================== *)
(** ** Object storage and the effect monad *)
(* ===================================================================== *)

(** Objects of the bucket, (name, content), in listing order. *)
Abbreviation Bucket := (list (string * string)).

(** Calls made to the storage collaborator, in program order. *)
Inductive event : Type :=
| Connect (bucket_name : string)
| Exists (name : string)
| DownloadText (name : string)
| ListBlobs (prefix : string) (delimiter : option string)
| DownloadBytes (name : string)
| Upload (name content : string).

(** Behaviour of the collaborators during one call of the routine: which
    storage operations raise, and what the two readers of pandas make of a
    file's bytes (with the keyword arguments of the call applied). *)
Record Env : Type := mkEnv {
  client_raises : bool;
  exists_raises : bool;
  download_as_text_raises : bool;
  list_blobs_raises : bool;
  download_as_bytes_raises : string -> bool;
  upload_raises : bool;
  read_excel : string -> result DataFrame;
  read_csv : string -> result DataFrame
}.

(** A computation reads and updates the bucket, returns a value or raises,
    and emits the storage calls it made. *)
Definition M (A : Type) : Type := Bucket -> result A * Bucket * list event.

Definition ret {A} (a : A) : M A := fun b => (Ok a, b, []).

Definition bind {A B} (m : M A) (k : A -> M B) : M B :=
  fun b =>
    match m b with
    | (Ok a, b1, t1) => let '(r, b2, t2) := k a b1 in (r, b2, t1 ++ t2)
    | (Raise, b1, t1) => (Raise, b1, t1)
    end.

(** [try: m  except Exception: h] *)
Definition try_except {A} (m : M A) (h : M A) : M A :=
  fun b =>
    match m b with
    | (Ok a, b1, t1) => (Ok a, b1, t1)
    | (Raise, b1, t1) => let '(r, b2, t2) := h b1 in (r, b2, t1 ++ t2)
    end.

Definition lift {A} (r : result A) : M A := fun b => (r, b, []).

Declare Scope py_scope.
Delimit Scope py_scope with py.
Notation "x <- m ;; k" := (bind m (fun x => k))
  (at level 100, m at next level, right associativity) : py_scope.
Notation "m ;;; k" := (bind m (fun _ => k))
  (at level 100, right associativity) : py_scope.

Module Storage.

Fixpoint get (name : string) (b : Bucket) : option string :=
  match b with
  | [] => None
  | (n, c) :: b' => if String.eqb n name then Some c else get name b'
  end.

(** Creates the object, or overwrites it where it stands. *)
Fixpoint put (name content : string) (b : Bucket) : Bucket :=
  match b with
  | [] => [(name, content)]
  | (n, c) :: b' =>
      if String.eqb n name then (n, content) :: b'
      else (n, c) :: put name content b'
  end.

(** What follows [prefix] in [name], when [name] starts with it. *)
Fixpoint after_prefix (prefix name : string) : option string :=
  match prefix, name with
  | EmptyString, _ => Some name
  | String _ _, EmptyString => None
  | String a p', String c n' =>
      if Ascii.eqb a c then after_prefix p' n' else None
  end.

(** An object is listed when its name starts with [prefix] and, under the
    delimiter "/", nothing after the prefix contains the delimiter. *)
Definition listed (prefix : string) (delimiter : option string)
    (name : string) : bool :=
  match after_prefix prefix name with
  | None => false
  | Some rest =>
      match delimiter with
      | None => true
      | Some _ => negb (PyStr.contains "/"%char rest)
      end
  end.

(** [storage.Client()] and [client.bucket(bucket_name)] *)
Definition Client (env : Env) (bucket_name : string) : M unit :=
  fun b => (if client_raises env then Raise else Ok tt, b, [Connect bucket_name]).

(** [blob.exists()] *)
Definition blob_exists (env : Env) (name : string) : M bool :=
  fun b =>
    (if exists_raises env then Raise
     else Ok (match get name b with Some _ => true | None => false end),
     b, [Exists name]).

(** [blob.download_as_text()]; a missing object raises. *)
Definition download_as_text (env : Env) (name : string) : M string :=
  fun b =>
    (if download_as_text_raises env then Raise
     else match get name b with Some c => Ok c | None => Raise end,
     b, [DownloadText name]).

(** [bucket.list_blobs(prefix=prefix, delimiter=delimiter)], consumed. *)
Definition list_blobs (env : Env) (prefix : string)
    (delimiter : option string) : M (list string) :=
  fun b =>
    (if list_blobs_raises env then Raise
     else Ok (filter (fun n => listed prefix delimiter n = true) (fst <$> b)),
     b, [ListBlobs prefix delimiter]).

(** [blob.download_as_bytes()] *)
Definition download_as_bytes (env : Env) (name : string) : M string :=
  fun b =>
    (if download_as_bytes_raises env name then Raise
     else match get name b with Some c => Ok c | None => Raise end,
     b, [DownloadBytes name]).

(** [blob.upload_from_string(content)] *)
Definition upload_from_string (env : Env) (name content : string) : M unit :=
  fun b =>
    if upload_raises env then (Raise, b, [Upload name content])
    else (Ok tt, put name content b, [Upload name content]).

End Storage.

(* ===================================================================== *)
(** ** The routine *)
(* ===================================================================== *)

Definition log_filename : string := "file_already_read.txt".

(** The one-character string "\n". *)
Definition newline : string := String "010"%char EmptyString.

(** Truthiness of a list. *)
Definition nonempty {A} (l : list A) : bool :=
  match l with [] => false | _ :: _ => true end.

(** [[f.strip() for f in log_content.split("\n") if f.strip()]] *)
Definition parse_log (log_content : string) : list string :=
  PyStr.strip <$>
    filter (fun f => PyStr.truthy (PyStr.strip f) = true)
           (PyStr.split "010"%char log_content).

(** The condition of the comprehension building [candidate_files]. *)
Definition is_candidate (file_type : string) (file_prefix : option string)
    (name : string) : bool :=
  PyStr.endswith name file_type
  && match file_prefix with
     | None => true
     | Some p => PyStr.startswith (PyStr.basename name) p
     end
  && negb (String.eqb (PyStr.basename name) log_filename).

Definition candidate_files (file_type : string) (file_prefix : option string)
    (blobs : list string) : list string :=
  filter (fun name => is_candidate file_type file_prefix name = true) blobs.

(** Step 4: the loop splitting the candidates into the blobs to read and the
    names queued for the ledger. *)
Fixpoint select_files (read_log_file : bool) (files_already_read : list string)
    (candidates : list string) (files_to_read files_to_update_log : list string)
    : list string * list string :=
  match candidates with
  | [] => (files_to_read, files_to_update_log)
  | blob :: rest =>
      let file_name := PyStr.basename blob in
      if read_log_file && PyStr.mem file_name files_already_read
      then select_files read_log_file files_already_read rest
             files_to_read files_to_update_log
      else select_files read_log_file files_already_read rest
             (files_to_read ++ [blob]) (files_to_update_log ++ [file_name])
  end.

(** What one iteration of the reading loop does with a blob. *)
Inductive outcome : Type :=
| Parsed (df : DataFrame)      (* appended to [all_dataframes] *)
| Unsupported                  (* [continue] *)
| Failed.                      (* the [except] branch *)

(** The reader chosen by [file_type], applied to the downloaded bytes. *)
Definition read_bytes (env : Env) (file_type : string) (file_bytes : string)
    : outcome :=
  if String.eqb file_type ".xlsx" then
    match read_excel env file_bytes with Ok df => Parsed df | Raise => Failed end
  else if String.eqb file_type ".csv" then
    match read_csv env file_bytes with Ok df => Parsed df | Raise => Failed end
  else Unsupported.

(** The body of the per-file [try]: download, then read. *)
Definition read_file (env : Env) (file_type : string) (blob : string)
    : M outcome :=
  try_except
    (file_bytes <- Storage.download_as_bytes env blob ;;
     ret (read_bytes env file_type file_bytes))%py
    (ret Failed).

(** Step 5: the reading loop over [files_to_read]. *)
Fixpoint read_loop (env : Env) (file_type : string) (files_to_read : list string)
    (all_dataframes : list DataFrame) (files_to_update_log : list string)
    : M (list DataFrame * list string) :=
  match files_to_read with
  | [] => ret (all_dataframes, files_to_update_log)
  | blob :: rest =>
      let file_name := PyStr.basename blob in
      (o <- read_file env file_type blob ;;
       match o with
       | Parsed df =>
           read_loop env file_type rest
             (all_dataframes ++ [setitem df "file" (Text file_name)])
             files_to_update_log
       | Unsupported =>
           read_loop env file_type rest all_dataframes files_to_update_log
       | Failed =>
           read_loop env file_type rest all_dataframes
             (if PyStr.mem file_name files_to_update_log
              then PyStr.remove file_name files_to_update_log
              else files_to_update_log)
       end)%py
  end.

(** [os.path.join(prefix, log_filename).replace("\\", "/")] *)
Definition log_blob_name (prefix : string) : string :=
  PyStr.replace "\"%char "/"%char (PyStr.os_path_join prefix log_filename).

(** Step 2: reading the ledger; returns [files_already_read] and [log_blob]. *)
Definition read_ledger (env : Env) (prefix : string) (read_log_file : bool)
    : M (list string * option string) :=
  if read_log_file then
    (found <- Storage.blob_exists env (log_blob_name prefix) ;;
     if found : bool then
       log_content <- Storage.download_as_text env (log_blob_name prefix) ;;
       ret (parse_log log_content, Some (log_blob_name prefix))
     else ret ([], Some (log_blob_name prefix)))%py
  else ret ([], None).

(** Step 6, the block guarded by [if read_log_file and files_to_update_log and
    log_blob], with its own [try]. *)
Definition update_ledger (env : Env) (read_log_file : bool)
    (files_already_read files_to_update_log : list string)
    (log_blob : option string) : M unit :=
  match log_blob with
  | Some log_blob_name =>
      if read_log_file && nonempty files_to_update_log then
        try_except
          (let updated_log_list := files_already_read ++ files_to_update_log in
           let updated_log_content := PyStr.join newline updated_log_list in
           Storage.upload_from_string env log_blob_name updated_log_content)
          (ret tt)
      else ret tt
  | None => ret tt
  end.

(** Steps 3 to 6, from the comprehension over the listed blobs onwards. *)
Definition ingest (env : Env) (file_type : string) (file_prefix : option string)
    (read_log_file : bool) (files_already_read : list string)
    (log_blob : option string) (blobs : list string) : M DataFrame :=
  let candidates := candidate_files file_type file_prefix blobs in
  match candidates with
  | [] => ret pd_DataFrame
  | _ :: _ =>
      let '(files_to_read, files_to_update_log) :=
        select_files read_log_file files_already_read candidates [] [] in
      match files_to_read with
      | [] => ret pd_DataFrame
      | _ :: _ =>
          (read <- read_loop env file_type files_to_read [] files_to_update_log ;;
           let '(all_dataframes, files_to_update_log) := read in
           match all_dataframes with
           | [] => ret pd_DataFrame
           | _ :: _ =>
               final_df <- lift (pd_concat all_dataframes) ;;
               update_ledger env read_log_file files_already_read
                 files_to_update_log log_blob ;;;
               ret final_df
           end)%py
      end
  end.

(** The body of the outer [try]. *)
Definition body (env : Env) (bucket_name prefix file_type : string)
    (file_prefix : option string) (delimiter read_log_file : bool)
    : M DataFrame :=
  (Storage.Client env bucket_name ;;;
   ledger <- read_ledger env prefix read_log_file ;;
   let '(files_already_read, log_blob) := ledger in
   blobs <- Storage.list_blobs env prefix
              (if delimiter then Some "/" else None) ;;
   ingest env file_type file_prefix read_log_file files_already_read
     log_blob blobs)%py.

Definition read_gcs_files_to_dataframes_aserta (env : Env)
    (bucket_name prefix file_type : string) (file_prefix : option string)
    (delimiter read_log_file : bool) : M DataFrame :=
  try_except
    (body env bucket_name prefix file_type file_prefix delimiter read_log_file)
    (ret pd_DataFrame).

(* ===================================================================== *)
(** ** Views of one run

    Pure readings of the bucket and of the environment, used to state what a
    run does: what the ledger object holds, which blobs are listed, which are
    read, and what becomes of each. *)
(* ===================================================================== *)

(** The names a run reads from the ledger object ([files_already_read]). *)
Definition ledger_names (b : Bucket) (prefix : string) : list string :=
  match Storage.get (log_blob_name prefix) b with
  | Some log_content => parse_log log_content
  | None => []
  end.

(** The blobs enumerated by [list_blobs]. *)
Definition listing (b : Bucket) (prefix : string) (delimiter : bool)
    : list string :=
  filter (fun n => Storage.listed prefix (if delimiter then Some "/" else None) n = true)
         (fst <$> b).

Definition candidates_of (b : Bucket) (prefix file_type : string)
    (file_prefix : option string) (delimiter : bool) : list string :=
  candidate_files file_type file_prefix (listing b prefix delimiter).

(** A candidate is kept for reading unless the ledger is in use and lists its
    trailing name. *)
Definition kept (read_log_file : bool) (files_already_read : list string)
    (blob : string) : bool :=
  negb (read_log_file && PyStr.mem (PyStr.basename blob) files_already_read).

(** [files_to_read] of a run whose set-up succeeds. *)
Definition to_read (b : Bucket) (prefix file_type : string)
    (file_prefix : option string) (delimiter read_log_file : bool)
    : list string :=
  filter (fun blob =>
            kept read_log_file
                 (if read_log_file then ledger_names b prefix else []) blob = true)
         (candidates_of b prefix file_type file_prefix delimiter).

(** The set-up (steps 1 to 3) completes without raising. *)
Definition setup_ok (env : Env) (b : Bucket) (prefix : string)
    (read_log_file : bool) : bool :=
  negb (client_raises env)
  && negb (list_blobs_raises env)
  && (negb read_log_file
      || (negb (exists_raises env)
          && match Storage.get (log_blob_name prefix) b with
             | Some _ => negb (download_as_text_raises env)
             | None => true
             end)).

(** What the reading loop makes of one blob. *)
Definition file_outcome (env : Env) (b : Bucket) (file_type blob : string)
    : outcome :=
  if download_as_bytes_raises env blob then Failed
  else match Storage.get blob b with
       | Some file_bytes => read_bytes env file_type file_bytes
       | None => Failed
       end.

Definition is_parsed (o : outcome) : bool :=
  match o with Parsed _ => true | _ => false end.

Definition is_failed (o : outcome) : bool :=
  match o with Failed => true | _ => false end.

(** The frames accumulated over [files], tagged, in reading order. *)
Definition parsed_frames (env : Env) (b : Bucket) (file_type : string)
    (files : list string) : list DataFrame :=
  flat_map (fun blob =>
              match file_outcome env b file_type blob with
              | Parsed df => [setitem df "file" (Text (PyStr.basename blob))]
              | _ => []
              end) files.

(** Trailing names of the blobs of [files] that were parsed, in order. *)
Definition parsed_names (env : Env) (b : Bucket) (file_type : string)
    (files : list string) : list string :=
  PyStr.basename <$>
    filter (fun blob => is_parsed (file_outcome env b file_type blob) = true) files.

(** The pending-update list once the loop has run over [files]. *)
Fixpoint pending (env : Env) (b : Bucket) (file_type : string)
    (files : list string) (files_to_update_log : list string) : list string :=
  match files with
  | [] => files_to_update_log
  | blob :: rest =>
      pending env b file_type rest
        (if is_failed (file_outcome env b file_type blob)
         then PyStr.remove (PyStr.basename blob) files_to_update_log
         else files_to_update_log)
  end.

(** No parsed blob of [files] shares its trailing name with a failed one. *)
Definition collision_free (env : Env) (b : Bucket) (file_type : string)
    (files : list string) : Prop :=
  forall blob1 blob2 df,
    blob1 ∈ files -> blob2 ∈ files ->
    file_outcome env b file_type blob1 = Parsed df ->
    file_outcome env b file_type blob2 = Failed ->
    PyStr.basename blob1 <> PyStr.basename blob2.

(** A trailing name survives the ledger text format: no surrounding white
    space, no line break, not empty. *)
Definition clean (name : string) : Prop :=
  PyStr.strip name = name /\ PyStr.contains "010"%char name = false
  /\ name <> EmptyString.

Definition supported (file_type : string) : Prop :=
  file_type = ".xlsx" \/ file_type = ".csv".

Definition is_upload (e : event) : bool :=
  match e with Upload _ _ => true | _ => false end.

Definition is_download (e : event) : bool :=
  match e with DownloadBytes _ => true | _ => false end.

(** Calls that read or write the ledger object. *)
Definition is_ledger_call (e : event) : bool :=
  match e with
  | Exists _ | DownloadText _ | Upload _ _ => true
  | _ => false
  end.

(** The three components of what a computation returns. *)
Definition value_of {A} (r : result A * Bucket * list event) : result A :=
  fst (fst r).
Definition bucket_of {A} (r : result A * Bucket * list event) : Bucket :=
  snd (fst r).
Definition trace_of {A} (r : result A * Bucket * list event) : list event :=
  snd r.

(** The same collaborators, the ledger upload raising or not. *)
Definition with_upload (env : Env) (raises : bool) : Env :=
  {| client_raises := client_raises env;
     exists_raises := exists_raises env;
     download_as_text_raises := download_as_text_raises env;
     list_blobs_raises := list_blobs_raises env;
     download_as_bytes_raises := download_as_bytes_raises env;
     upload_raises := raises;
     read_excel := read_excel env;
     read_csv := read_csv env |}.

(** The candidate filter in the words of the specification: [t] is the
    trailing path segment of [name] when it holds no "/" and [name] is [t]
    or ends with "/" followed by [t]. *)
Definition trailing_segment (name t : string) : Prop :=
  PyStr.contains "/"%char t = false
  /\ (name = t \/ exists d, name = d +:+ "/" +:+ t).

(** The name ends with [file_type]; its trailing segment starts with
    [file_prefix] when one is given, and is not the ledger file name. *)
Definition candidate_spec (file_type : string) (file_prefix : option string)
    (name : string) : Prop :=
  (exists stem, name = stem +:+ file_type)
  /\ (forall p, file_prefix = Some p ->
        exists t rest, trailing_segment name t /\ t = p +:+ rest)
  /\ (exists t, trailing_segment name t /\ t <> "file_already_read.txt").

(** The blobs a run reads, their tagged frames and the names left pending
    once the loop is over. *)
Section RunViews.

Variables (env : Env) (b : Bucket) (bucket_name prefix file_type : string)
          (file_prefix : option string) (delimiter read_log_file : bool).

Definition run_to_read : list string :=
  to_read b prefix file_type file_prefix delimiter read_log_file.

Definition run_frames : list DataFrame :=
  parsed_frames env b file_type run_to_read.

Definition run_pending : list string :=
  pending env b file_type run_to_read (PyStr.basename <$> run_to_read).

(** The frame returned after the loop. *)
Definition final_frame : DataFrame :=
  match pd_concat run_frames with
  | Ok final_df => final_df
  | Raise => pd_DataFrame
  end.

(** The text handed to [upload_from_string], when the block writing the
    ledger is entered. *)
Definition ledger_update : option string :=
  if read_log_file && nonempty run_frames && nonempty run_pending
  then Some (PyStr.join newline (ledger_names b prefix ++ run_pending))
  else None.

(** The storage calls of steps 1 to 3. *)
Definition setup_trace : list event :=
  Connect bucket_name
  :: (if read_log_file
      then Exists (log_blob_name prefix)
           :: match Storage.get (log_blob_name prefix) b with
              | Some _ => [DownloadText (log_blob_name prefix)]
              | None => []
              end
      else [])
  ++ [ListBlobs prefix (if delimiter then Some "/" else None)].

(** The bucket a run leaves behind when its set-up succeeds. *)
Definition bucket_after : Bucket :=
  match ledger_update with
  | Some content =>
      if upload_raises env then b
      else Storage.put (log_blob_name prefix) content b
  | None => b
  end.

Definition trace_after : list event :=
  setup_trace ++ (DownloadBytes <$> run_to_read)
  ++ match ledger_update with
     | Some content => [Upload (log_blob_name prefix) content]
     | None => []
     end.

End RunViews.

(* ===================================================================== *)
(** ** Sample collaborators *)
(* ===================================================================== *)

(** A reader for concrete runs: it raises on the content "corrupt", makes a
    frame with a header and no row of the content "header", and a frame with
    one row holding the content otherwise. *)
Definition sample_reader (file_bytes : string) : result DataFrame :=
  if String.eqb file_bytes "corrupt" then Raise
  else if String.eqb file_bytes "header"
       then Ok {| columns := ["value"]; rows := [] |}
       else Ok {| columns := ["value"];
                  rows := [ {[ "value" := Text file_bytes ]} ] |}.

(** No storage call raises. *)
Definition sample_env : Env :=
  {| client_raises := false;
     exists_raises := false;
     download_as_text_raises := false;
     list_blobs_raises := false;
     download_as_bytes_raises := fun _ => false;
     upload_raises := false;
     read_excel := sample_reader;
     read_csv := sample_reader |}.

(* ===================================================================== *)
(** ** Statements about runs

    The conclusions of the scenario properties, as predicates on the
    arguments, the collaborators and the bucket of a run. *)
(* ===================================================================== *)

(** Partial failure over the blobs [A], [B], [C], of which [A] and [C] were
    parsed into [dfA] and [dfC]: the frame returned holds the rows of [A],
    then those of [C], each with the column "file" set to the trailing name
    of its blob; the three downloads took place; the names handed to the
    ledger upload include the trailing names of [A] and [C], not that of
    [B]. *)
Definition isolates_failure (env : Env) (bucket_name prefix file_type : string)
    (file_prefix : option string) (delimiter : bool) (b : Bucket)
    (A B C : string) (dfA dfC : DataFrame) : Prop :=
  exists df b' evs names,
    read_gcs_files_to_dataframes_aserta env bucket_name prefix file_type
      file_prefix delimiter true b = (Ok df, b', evs)
    /\ rows df
       = ((fun r => <["file" := Text (PyStr.basename A)]> r) <$> rows dfA)
         ++ ((fun r => <["file" := Text (PyStr.basename C)]> r) <$> rows dfC)
    /\ [DownloadBytes A; DownloadBytes B; DownloadBytes C] `sublist_of` evs
    /\ Upload (log_blob_name prefix) (PyStr.join newline names) ∈ evs
    /\ PyStr.basename A ∈ names
    /\ PyStr.basename C ∈ names
    /\ PyStr.basename B ∉ names.

(** The scenario of partial-failure isolation, for any three blobs read. *)
Definition partial_failure_claim (env : Env)
    (bucket_name prefix file_type : string) (file_prefix : option string)
    (delimiter : bool) (b : Bucket) (A B C : string) (dfA dfC : DataFrame)
    : Prop :=
  setup_ok env b prefix true = true ->
  to_read b prefix file_type file_prefix delimiter true = [A; B; C] ->
  file_outcome env b file_type A = Parsed dfA ->
  file_outcome env b file_type B = Failed ->
  file_outcome env b file_type C = Parsed dfC ->
  isolates_failure env bucket_name prefix file_type file_prefix delimiter b
    A B C dfA dfC.

(** Three data files under "in", two of them named x.csv in different
    folders; the second one cannot be parsed. *)
Definition colliding_bucket : Bucket :=
  [("in/a/x.csv", "1"); ("in/b/x.csv", "corrupt"); ("in/y.csv", "3")].

(** Two runs in a row with the ledger in use, the second on the bucket left
    by the first: the first returns a frame that is not empty, the second an
    empty one, downloading nothing and writing nothing. *)
Definition idempotent_runs (env1 env2 : Env)
    (bucket_name prefix file_type : string) (file_prefix : option string)
    (delimiter : bool) (b : Bucket) : Prop :=
  exists df1 b1 evs1 df2 evs2,
    read_gcs_files_to_dataframes_aserta env1 bucket_name prefix file_type
      file_prefix delimiter true b = (Ok df1, b1, evs1)
    /\ df_empty df1 = false
    /\ read_gcs_files_to_dataframes_aserta env2 bucket_name prefix file_type
         file_prefix delimiter true b1 = (Ok df2, b1, evs2)
    /\ df_empty df2 = true
    /\ Forall (fun e => is_upload e = false /\ is_download e = false) evs2.

(** Idempotence under the ledger, for any bucket with a candidate not yet in
    the ledger, every file read being parsed and the upload succeeding. *)
Definition idempotence_claim (env1 env2 : Env)
    (bucket_name prefix file_type : string) (file_prefix : option string)
    (delimiter : bool) (b : Bucket) : Prop :=
  setup_ok env1 b prefix true = true ->
  upload_raises env1 = false ->
  to_read b prefix file_type file_prefix delimiter true <> [] ->
  (forall blob,
      blob ∈ to_read b prefix file_type file_prefix delimiter true ->
      is_parsed (file_outcome env1 b file_type blob) = true) ->
  idempotent_runs env1 env2 bucket_name prefix file_type file_prefix
    delimiter b.

(** One file holding a header line and no data. *)
Definition header_bucket : Bucket := [("data/h.csv", "header")].

(** One file whose name starts with a space. *)
Definition padded_bucket : Bucket := [("data/ x.csv", "1")].

(** Ledger soundness for a run with the ledger in use: a name found in the
    ledger after the run was there before, or is the trailing name of a
    candidate parsed in the run; a file read in the run whose download or
    parse failed is not in the ledger afterwards and is read again by the
    next run. *)
Definition ledger_soundness_claim (env : Env)
    (bucket_name prefix file_type : string) (file_prefix : option string)
    (delimiter : bool) (b : Bucket) : Prop :=
  (forall n,
      n ∈ ledger_names
            (bucket_of
               (read_gcs_files_to_dataframes_aserta env bucket_name prefix
                  file_type file_prefix delimiter true b)) prefix ->
      n ∈ ledger_names b prefix
      \/ exists blob df,
           blob ∈ candidates_of b prefix file_type file_prefix delimiter
           /\ PyStr.basename blob = n
           /\ file_outcome env b file_type blob = Parsed df)
  /\ (forall blob,
        blob ∈ to_read b prefix file_type file_prefix delimiter true ->
        file_outcome env b file_type blob = Failed ->
        (PyStr.basename blob
         ∉ ledger_names
             (bucket_of
                (read_gcs_files_to_dataframes_aserta env bucket_name prefix
                   file_type file_prefix delimiter true b)) prefix)
        /\ (blob
            ∈ to_read
                (bucket_of
                   (read_gcs_files_to_dataframes_aserta env bucket_name prefix
                      file_type file_prefix delimiter true b))
                prefix file_type file_prefix delimiter true)).

(** A blob is skipped by a run when the run does not download it. *)
Definition skipped (blob : string) (evs : list event) : Prop :=
  DownloadBytes blob ∉ evs.

(** One call of the routine, with its collaborators and arguments. *)
Record call : Type := mkCall {
  call_env : Env;
  call_bucket_name : string;
  call_prefix : string;
  call_file_type : string;
  call_file_prefix : option string;
  call_delimiter : bool;
  call_read_log_file : bool
}.

Definition run_call (c : call) : M DataFrame :=
  read_gcs_files_to_dataframes_aserta (call_env c) (call_bucket_name c)
    (call_prefix c) (call_file_type c) (call_file_prefix c)
    (call_delimiter c) (call_read_log_file c).

(** The bucket left by a sequence of calls. *)
Fixpoint bucket_after_calls (calls : list call) (b : Bucket) : Bucket :=
  match calls with
  | [] => b
  | c :: rest => bucket_after_calls rest (bucket_of (run_call c b))
  end.

(** Keying on the trailing name, for two candidates that share it: an entry
    of the ledger with that name has both skipped; once one of them has been
    parsed by a run, both are skipped by the run that follows. *)
Definition trailing_name_claim (env env' : Env)
    (bucket_name prefix file_type : string) (file_prefix : option string)
    (delimiter : bool) (b : Bucket) (blob1 blob2 : string) : Prop :=
  blob1 ∈ candidates_of b prefix file_type file_prefix delimiter ->
  blob2 ∈ candidates_of b prefix file_type file_prefix delimiter ->
  blob1 <> blob2 ->
  PyStr.basename blob1 = PyStr.basename blob2 ->
  (PyStr.basename blob1 ∈ ledger_names b prefix ->
   skipped blob1
     (trace_of (read_gcs_files_to_dataframes_aserta env bucket_name prefix
                  file_type file_prefix delimiter true b))
   /\ skipped blob2
        (trace_of (read_gcs_files_to_dataframes_aserta env bucket_name prefix
                     file_type file_prefix delimiter true b)))
  /\ (setup_ok env b prefix true = true ->
      ((blob1 ∈ to_read b prefix file_type file_prefix delimiter true
        /\ is_parsed (file_outcome env b file_type blob1) = true)
       \/ (blob2 ∈ to_read b prefix file_type file_prefix delimiter true
           /\ is_parsed (file_outcome env b file_type blob2) = true)) ->
      skipped blob1
        (trace_of
           (read_gcs_files_to_dataframes_aserta env' bucket_name prefix
              file_type file_prefix delimiter true
              (bucket_of
                 (read_gcs_files_to_dataframes_aserta env bucket_name prefix
                    file_type file_prefix delimiter true b))))
      /\ skipped blob2
           (trace_of
              (read_gcs_files_to_dataframes_aserta env' bucket_name prefix
                 file_type file_prefix delimiter true
                 (bucket_of
                    (read_gcs_files_to_dataframes_aserta env bucket_name
                       prefix file_type file_prefix delimiter true b))))).

(** Two files named x.csv in different folders under "in". *)
Definition shared_name_bucket : Bucket :=
  [("in/a/x.csv", "1"); ("in/b/x.csv", "2")].

(* ===================================================================== *)
(** ** Account codes: [serie_cuentaajustada] and [buscarcuenta] *)
(* ===================================================================== *)

Module PySlice.

(** [c * n] *)
Fixpoint repeat_char (c : ascii) (n : nat) : string :=
  match n with
  | O => EmptyString
  | S n' => String c (repeat_char c n')
  end.

(** [s[i:j]] for [0 <= i <= j] *)
Definition slice (i j : nat) (s : string) : string :=
  String.substring i (j - i) s.

(** [s[-k:]]: the last [k] characters, the whole string when shorter. *)
Definition last_chars (k : nat) (s : string) : string :=
  String.substring (String.length s - k) k s.

(** [s[-k]] for [k >= 1]; IndexError when [s] is shorter than [k]. *)
Definition char_from_end (k : nat) (s : string) : result ascii :=
  if (k <=? String.length s)%nat
  then match String.get (String.length s - k) s with
       | Some c => Ok c
       | None => Raise
       end
  else Raise.

(** [s.rstrip(c)] for a one-character set. *)
Fixpoint rstrip_char (c : ascii) (s : string) : string :=
  match s with
  | EmptyString => EmptyString
  | String a s' =>
      match rstrip_char c s' with
      | EmptyString => if Ascii.eqb a c then EmptyString else String a EmptyString
      | r => String a r
      end
  end.

(** [s.ljust(width, c)] *)
Definition ljust (width : nat) (c : ascii) (s : string) : string :=
  s +:+ repeat_char c (width - String.length s).

(** [s.zfill(width)]: zeros on the left, after a leading sign. *)
Definition zfill (width : nat) (s : string) : string :=
  let pad := repeat_char "0"%char (width - String.length s) in
  match s with
  | String a rest =>
      if Ascii.eqb a "+"%char || Ascii.eqb a "-"%char
      then String a (pad +:+ rest)
      else pad +:+ s
  | EmptyString => pad
  end.

(** [c.isdigit()] for an ASCII character. *)
Definition is_digit (c : ascii) : bool :=
  ((48 <=? nat_of_ascii c) && (nat_of_ascii c <=? 57))%nat.

End PySlice.

(** [str] of an integer: its decimal digits, after "-" when negative. *)
Definition str_int (z : Z) : string :=
  DecimalString.NilZero.string_of_int (Z.to_int z).

(** The rule [serie_cuentaajustada] applies to one account, given as the
    text of its number: main accounts (ending in "000") take the lambda of
    the first [apply], secondary ones (ending in "00" only) that of the
    second, the others stay as they are. *)
Definition cuenta_ajustada (x : string) : result string :=
  let esprincipal := String.eqb (PySlice.last_chars 3 x) "000" in
  let essecundaria :=
    String.eqb (PySlice.last_chars 2 x) "00" && negb esprincipal in
  if esprincipal then
    Ok (PySlice.ljust 4 "0"%char
          (PySlice.rstrip_char "0"%char (PySlice.slice 1 5 x)))
  else if essecundaria then
    match PySlice.char_from_end 3 x with
    | Ok c =>
        Ok (PySlice.rstrip_char "0"%char (PySlice.slice 1 5 x)
            +:+ PySlice.zfill 2 (String c EmptyString))
    | Raise => Raise
    end
  else Ok x.






(* ===================================================================== *)
(** ** Batched upload: [upload_to_bigquery] *)
(* ===================================================================== *)

(** [list(range(start, stop, step))]; ValueError on a zero step. *)
Definition py_range (start stop step : Z) : result (list Z) :=
  if (step =? 0)%Z then Raise
  else
    let len :=
      if (0 <? step)%Z
      then (if (stop <=? start)%Z then 0 else (stop - start - 1) / step + 1)%Z
      else (if (start <=? stop)%Z then 0 else (start - stop - 1) / (- step) + 1)%Z
    in
    Ok ((fun k => (start + Z.of_nat k * step)%Z) <$> seq 0 (Z.to_nat len)).

(** The number of batches of [c] rows needed for [n] rows. *)
Definition chunk_count (n c : nat) : nat :=
  if (n =? 0)%nat then 0 else (n - 1) / c + 1.

(** [df.iloc[i:j]] on the rows, for [0 <= i <= j]. *)
Definition iloc {A} (i j : Z) (l : list A) : list A :=
  take (Z.to_nat j - Z.to_nat i) (drop (Z.to_nat i) l).

(** The BigQuery side of one call: steps 1 to 5 (client, dataset, partition
    column, schema, table) either raise or hand on the frame to load, and the
    [k]-th call of [pandas_gbq.to_gbq] raises or not. *)
Record BQEnv : Type := mkBQEnv {
  prepare : DataFrame -> result DataFrame;
  to_gbq_raises : nat -> bool
}.

(** [pandas_gbq.to_gbq(df_chunk, if_exists=...)] on the rows of the
    destination table. *)
Definition to_gbq (env : BQEnv) (k : nat) (df_chunk : list (gmap string cell))
    (if_exists : string) (table : list (gmap string cell))
    : result unit * list (gmap string cell) :=
  if to_gbq_raises env k then (Raise, table)
  else if String.eqb if_exists "replace" then (Ok tt, df_chunk)
  else (Ok tt, table ++ df_chunk).

(** Step 6: the loop over [range(0, total_rows, chunk_size)]; [k] counts the
    calls made so far. *)
Fixpoint upload_loop (env : BQEnv) (df_rows : list (gmap string cell))
    (chunk_size : Z) (if_exists : string) (indices : list Z) (k : nat)
    (table : list (gmap string cell))
    : result unit * list (gmap string cell) :=
  match indices with
  | [] => (Ok tt, table)
  | i :: rest =>
      let df_chunk := iloc i (i + chunk_size) df_rows in
      let current_if_exists :=
        if (i =? 0)%Z && String.eqb if_exists "replace"
        then "replace" else "append" in
      match to_gbq env k df_chunk current_if_exists table with
      | (Ok _, table') =>
          upload_loop env df_rows chunk_size if_exists rest (S k) table'
      | (Raise, table') => (Raise, table')
      end
  end.

(** [upload_to_bigquery(df, ..., chunk_size, if_exists)]: the routine returns
    nothing and swallows every exception; what it leaves is the content of
    the destination table. *)
Definition upload_to_bigquery (env : BQEnv) (df : DataFrame) (chunk_size : Z)
    (if_exists : string) (table : list (gmap string cell))
    : list (gmap string cell) :=
  match prepare env df with
  | Raise => table
  | Ok df' =>
      let total_rows := Z.of_nat (length (rows df')) in
      match py_range 0 total_rows chunk_size with
      | Raise => table
      | Ok indices =>
          snd (upload_loop env (rows df') chunk_size if_exists indices 0 table)
      end
  end.

(* ===================================================================== *)
(** ** One spreadsheet: [extraer_excel_gcs] *)
(* ===================================================================== *)

(** [extraer_excel_gcs(bucket_name, file_path)]: no [try], every exception
    reaches the caller. *)
Definition extraer_excel_gcs (env : Env) (bucket_name file_path : string)
    : M DataFrame :=
  (Storage.Client env bucket_name ;;;
   file_bytes <- Storage.download_as_bytes env file_path ;;
   lift (read_excel env file_bytes))%py.

(* ===================================================================== *)
(** ** Facts about the string primitives *)
(* ===================================================================== *)

Section StringFacts.

Import PyStr.

Lemma append_nil_l (t : string) : EmptyString +:+ t = t.
Proof. reflexivity. Qed.

Lemma append_cons (c : ascii) (s t : string) :
  String c s +:+ t = String c (s +:+ t).
Proof. reflexivity. Qed.

Lemma append_assoc (s t u : string) : (s +:+ t) +:+ u = s +:+ (t +:+ u).
Proof.
  induction s as [|c s IH]; [done |]. by rewrite !append_cons, IH.
Qed.

Lemma split_not_nil (c : ascii) (s : string) : split c s <> [].
Proof.
  induction s as [|a s IH]; simpl; [done |].
  destruct (Ascii.eqb a c); [done |].
  by destruct (split c s).
Qed.

Lemma split_app_sep (c : ascii) (a b : string) :
  split c (a +:+ String c b) = split c a ++ split c b.
Proof.
  induction a as [|x a IH].
  - rewrite append_nil_l. simpl. by rewrite Ascii.eqb_refl.
  - rewrite append_cons. simpl.
    destruct (Ascii.eqb x c); rewrite IH; [done |].
    pose proof (split_not_nil c a) as Hne.
    destruct (split c a) as [|h t]; [done | done].
Qed.

Lemma split_no_sep (c : ascii) (s : string) :
  contains c s = false -> split c s = [s].
Proof.
  induction s as [|a s IH]; simpl; [done |].
  intros H. apply orb_false_iff in H as [Hac Hs].
  rewrite Hac, (IH Hs). done.
Qed.

Lemma split_parts_no_sep (c : ascii) (s x : string) :
  x ∈ split c s -> contains c x = false.
Proof.
  revert x. induction s as [|a s IH]; simpl; intros x Hx.
  - apply list_elem_of_singleton in Hx. by subst.
  - destruct (Ascii.eqb a c) eqn:Hac.
    + apply elem_of_cons in Hx as [-> | Hx]; [done | by apply IH].
    + pose proof (split_not_nil c s) as Hne.
      destruct (split c s) as [|h t] eqn:Hs; [done |].
      apply elem_of_cons in Hx as [-> | Hx]; simpl.
      * rewrite Hac. simpl. apply IH. left.
      * apply IH. by right.
Qed.

Lemma join_cons (sep x : string) (l : list string) :
  l <> [] -> join sep (x :: l) = x +:+ sep +:+ join sep l.
Proof. by destruct l. Qed.

Lemma join_split (c : ascii) (s : string) :
  join (String c EmptyString) (split c s) = s.
Proof.
  induction s as [|a s IH]; simpl; [done |].
  pose proof (split_not_nil c s) as Hne.
  destruct (Ascii.eqb a c) eqn:Hac.
  - apply Ascii.eqb_eq in Hac as ->.
    rewrite join_cons by done. by rewrite IH.
  - destruct (split c s) as [|h t]; [done |].
    destruct t as [|h' t].
    + simpl in *. by rewrite IH.
    + rewrite join_cons by done. rewrite join_cons in IH by done.
      by rewrite append_cons, IH.
Qed.

Lemma join_snoc (sep x : string) (l : list string) :
  l <> [] -> join sep (l ++ [x]) = join sep l +:+ sep +:+ x.
Proof.
  induction l as [|y l IH]; [done |]. intros _.
  destruct l as [|z l].
  - done.
  - change ((y :: z :: l) ++ [x]) with (y :: ((z :: l) ++ [x])).
    rewrite join_cons by done.
    rewrite IH by done.
    rewrite (join_cons sep y (z :: l)) by done.
    by rewrite !append_assoc.
Qed.

Lemma split_join (c : ascii) (l : list string) :
  l <> [] ->
  split c (join (String c EmptyString) l) = flat_map (split c) l.
Proof.
  induction l as [|x l IH]; [done |]. intros _.
  destruct l as [|y l].
  - simpl. by rewrite app_nil_r.
  - rewrite join_cons by done.
    rewrite append_cons, append_nil_l.
    rewrite split_app_sep, IH by done. done.
Qed.

End StringFacts.

Section StripFacts.

Import PyStr.

Lemma rstrip_cons_keep (c : ascii) (s : string) :
  is_space c = false -> rstrip (String c s) = String c (rstrip s).
Proof. intros H. simpl. rewrite H. by destruct (rstrip s). Qed.

Lemma rstrip_idem (s : string) : rstrip (rstrip s) = rstrip s.
Proof.
  induction s as [|c s IH]; [done |].
  simpl. destruct (rstrip s) as [|a r] eqn:Hr.
  - destruct (is_space c) eqn:Hc; [done |]. simpl. by rewrite Hc.
  - simpl in *. by rewrite IH.
Qed.

Lemma lstrip_head (s : string) (c : ascii) (t : string) :
  lstrip s = String c t -> is_space c = false.
Proof.
  induction s as [|a s IH]; simpl; [done |].
  destruct (is_space a) eqn:Ha; [done |].
  intros [= <- <-]. done.
Qed.

Lemma strip_idem (s : string) : strip (strip s) = strip s.
Proof.
  unfold strip. destruct (lstrip s) as [|c t] eqn:Hl; [done |].
  pose proof (lstrip_head _ _ _ Hl) as Hc.
  rewrite (rstrip_cons_keep _ _ Hc). simpl lstrip. rewrite Hc.
  rewrite (rstrip_cons_keep _ _ Hc). by rewrite rstrip_idem.
Qed.

Lemma contains_lstrip (c : ascii) (s : string) :
  contains c s = false -> contains c (lstrip s) = false.
Proof.
  induction s as [|a s IH]; simpl; [done |].
  intros H. apply orb_false_iff in H as [Hac Hs].
  destruct (is_space a); [by apply IH |]. simpl. by rewrite Hac, Hs.
Qed.

Lemma contains_rstrip (c : ascii) (s : string) :
  contains c s = false -> contains c (rstrip s) = false.
Proof.
  induction s as [|a s IH]; simpl; [done |].
  intros H. apply orb_false_iff in H as [Hac Hs].
  specialize (IH Hs).
  destruct (rstrip s) as [|b r].
  - destruct (is_space a); simpl; [done | by rewrite Hac].
  - simpl in *. by rewrite Hac, IH.
Qed.

Lemma contains_strip (c : ascii) (s : string) :
  contains c s = false -> contains c (strip s) = false.
Proof. intros H. by apply contains_rstrip, contains_lstrip. Qed.

Lemma truthy_true (s : string) : truthy s = true <-> s <> EmptyString.
Proof. by destruct s. Qed.

End StripFacts.

Section LedgerFormat.

Import PyStr.

Lemma parse_log_elem_clean (log_content x : string) :
  x ∈ parse_log log_content -> clean x.
Proof.
  unfold parse_log. intros Hx.
  apply list_elem_of_fmap in Hx as (f & -> & Hf).
  apply list_elem_of_filter in Hf as [Hne Hf].
  repeat split.
  - apply strip_idem.
  - apply contains_strip. by eapply split_parts_no_sep.
  - by apply truthy_true.
Qed.

Lemma parse_log_clean (x : string) : clean x -> parse_log x = [x].
Proof.
  intros (Hs & Hn & Hne). unfold parse_log.
  rewrite (split_no_sep _ _ Hn).
  rewrite filter_cons_True by (rewrite Hs; by apply truthy_true).
  rewrite filter_nil. simpl. by rewrite Hs.
Qed.

Lemma parse_log_join (l : list string) :
  parse_log (join newline l) = flat_map parse_log l.
Proof.
  destruct l as [|x l]; [done |].
  unfold parse_log, newline. rewrite split_join by done.
  generalize (x :: l). clear. intros l.
  induction l as [|y l IH]; [done |].
  simpl. by rewrite filter_app, fmap_app, IH.
Qed.

Lemma flat_map_parse_log_clean (l : list string) :
  Forall clean l -> flat_map parse_log l = l.
Proof.
  induction 1 as [|x l Hx _ IH]; [done |].
  simpl. by rewrite (parse_log_clean _ Hx), IH.
Qed.

(** The ledger text format round-trips clean names. *)
Lemma parse_log_join_clean (l : list string) :
  Forall clean l -> parse_log (join newline l) = l.
Proof. intros H. by rewrite parse_log_join, flat_map_parse_log_clean. Qed.

End LedgerFormat.

Section PathFacts.

Import PyStr.

Lemma last_app_not_nil {A} (l1 l2 : list A) (d : A) :
  l2 <> [] -> List.last (l1 ++ l2) d = List.last l2 d.
Proof.
  intros Hne. induction l1 as [|x l1 IH]; [done |].
  simpl. destruct (l1 ++ l2) eqn:E; [|exact IH].
  apply app_eq_nil in E as [_ ->]. done.
Qed.

Lemma basename_app_sep (d t : string) :
  basename (d +:+ "/" +:+ t) = basename t.
Proof.
  unfold basename. rewrite append_cons, append_nil_l, split_app_sep.
  apply last_app_not_nil, split_not_nil.
Qed.

Lemma basename_no_sep (t : string) :
  contains "/"%char t = false -> basename t = t.
Proof. intros H. unfold basename. by rewrite split_no_sep. Qed.

Lemma basename_has_no_sep (name : string) :
  contains "/"%char (basename name) = false.
Proof.
  unfold basename. pose proof (split_not_nil "/"%char name) as Hne.
  apply (split_parts_no_sep "/"%char name).
  destruct (split "/"%char name) as [|h t] using rev_ind; [done |].
  rewrite last_last. apply elem_of_app. right. left.
Qed.

Lemma basename_decompose (name : string) :
  name = basename name \/ exists d, name = d +:+ "/" +:+ basename name.
Proof.
  unfold basename. pose proof (join_split "/"%char name) as Hj.
  pose proof (split_not_nil "/"%char name) as Hne.
  destruct (split "/"%char name) as [|h t _] using rev_ind; [done |].
  rewrite last_last.
  destruct t as [|y t].
  - left. by rewrite <- Hj.
  - right. exists (join "/" (y :: t)).
    rewrite <- Hj. by rewrite join_snoc.
Qed.

(** [name.split("/")[-1]] is the part of [name] after its last "/". *)
Lemma basename_spec (name t : string) :
  basename name = t <->
  contains "/"%char t = false
  /\ (name = t \/ exists d, name = d +:+ "/" +:+ t).
Proof.
  split.
  - intros <-. split; [apply basename_has_no_sep | apply basename_decompose].
  - intros [Ht [-> | [d ->]]].
    + by apply basename_no_sep.
    + rewrite basename_app_sep. by apply basename_no_sep.
Qed.

Lemma startswith_spec (s p : string) :
  startswith s p = true <-> exists r, s = p +:+ r.
Proof.
  revert s. induction p as [|a p IH]; intros s.
  - split; [intros _; by exists s | by destruct s].
  - destruct s as [|b s]; simpl.
    + split; [done | intros [r Hr]; by rewrite append_cons in Hr].
    + rewrite andb_true_iff, IH, Ascii.eqb_eq. split.
      * intros [-> [r ->]]. by exists r.
      * intros [r Hr]. rewrite append_cons in Hr.
        injection Hr as -> ->. split; [done | by exists r].
Qed.

Lemma endswith_spec (s suf : string) :
  endswith s suf = true <-> exists p, s = p +:+ suf.
Proof.
  induction s as [|a s IH].
  - destruct suf as [|b suf]; simpl.
    + split; [intros _; by exists EmptyString | done].
    + split; [done |]. intros [[|] Hp]; [by rewrite append_nil_l in Hp | done].
  - change (endswith (String a s) suf)
      with (if String.eqb (String a s) suf then true else endswith s suf).
    destruct (String.eqb_spec (String a s) suf) as [<- | Hne].
    + split; [intros _; by exists EmptyString | done].
    + rewrite IH. split.
      * intros [p ->]. by exists (String a p).
      * intros [[|b p] Hp].
        -- by rewrite append_nil_l in Hp.
        -- rewrite append_cons in Hp. injection Hp as -> ->. by exists p.
Qed.

Lemma replace_app (o n : ascii) (a b : string) :
  replace o n (a +:+ b) = replace o n a +:+ replace o n b.
Proof.
  induction a as [|c a IH]; [done |].
  rewrite append_cons. simpl. by rewrite IH, append_cons.
Qed.

(** The ledger object always carries the ledger file name as its trailing
    path segment. *)
Lemma basename_log_blob_name (prefix : string) :
  basename (log_blob_name prefix) = log_filename.
Proof.
  unfold log_blob_name, os_path_join.
  change (startswith log_filename "/") with false. cbv iota.
  destruct (negb (truthy prefix) || endswith prefix "/") eqn:E.
  - apply orb_true_iff in E as [E | E].
    + destruct prefix; [done | done].
    + apply endswith_spec in E as [p ->].
      rewrite !replace_app.
      change (replace "\"%char "/"%char "/") with "/".
      change (replace "\"%char "/"%char log_filename) with log_filename.
      rewrite append_assoc. by rewrite basename_app_sep.
  - rewrite !replace_app.
    change (replace "\"%char "/"%char "/") with "/".
    change (replace "\"%char "/"%char log_filename) with log_filename.
    by rewrite basename_app_sep.
Qed.

Lemma log_blob_not_candidate (prefix file_type : string)
    (file_prefix : option string) :
  is_candidate file_type file_prefix (log_blob_name prefix) = false.
Proof.
  unfold is_candidate. rewrite basename_log_blob_name.
  rewrite String.eqb_refl. simpl. apply andb_false_r.
Qed.

End PathFacts.

(* ===================================================================== *)
(** ** The two loops *)
(* ===================================================================== *)

Section Loops.

Import PyStr.

Lemma mem_true (x : string) (l : list string) : mem x l = true <-> x ∈ l.
Proof.
  unfold mem. rewrite existsb_exists. split.
  - intros (y & Hy & E). apply String.eqb_eq in E as ->.
    by apply list_elem_of_In.
  - intros H. exists x. split; [by apply list_elem_of_In | apply String.eqb_refl].
Qed.

Lemma mem_false (x : string) (l : list string) : mem x l = false <-> x ∉ l.
Proof.
  rewrite <- mem_true. destruct (mem x l); split; done.
Qed.

Lemma remove_absent (x : string) (l : list string) :
  x ∉ l -> remove x l = l.
Proof.
  induction l as [|y l IH]; [done |]. intros H.
  apply not_elem_of_cons in H as [Hxy Hl]. simpl.
  destruct (String.eqb_spec x y); [done |]. by rewrite IH.
Qed.

Lemma remove_first (x : string) (p r : list string) :
  x ∉ p -> remove x (p ++ x :: r) = p ++ r.
Proof.
  induction p as [|y p IH]; intros H; simpl.
  - by rewrite String.eqb_refl.
  - apply not_elem_of_cons in H as [Hxy Hp].
    destruct (String.eqb_spec x y); [done |]. by rewrite IH.
Qed.

Lemma remove_perm (x : string) (l : list string) :
  x ∈ l -> l ≡ₚ x :: remove x l.
Proof.
  induction l as [|y l IH]; intros H; [by apply elem_of_nil in H |].
  simpl. destruct (String.eqb_spec x y) as [-> | Hne]; [done |].
  apply elem_of_cons in H as [-> | H]; [done |].
  rewrite (IH H) at 1. apply Permutation_swap.
Qed.

Lemma select_files_spec (rl : bool) (far cands tr upd : list string) :
  select_files rl far cands tr upd
  = (tr ++ filter (fun blob => kept rl far blob = true) cands,
     upd ++ (basename <$> filter (fun blob => kept rl far blob = true) cands)).
Proof.
  revert tr upd. induction cands as [|blob rest IH]; intros tr upd; simpl.
  - by rewrite filter_nil, !app_nil_r.
  - destruct (rl && mem (basename blob) far) eqn:E.
    + rewrite IH, filter_cons_False; [done |].
      unfold kept. rewrite E. done.
    + rewrite IH, filter_cons_True by (unfold kept; by rewrite E).
      rewrite fmap_cons, <- !app_assoc. done.
Qed.

Lemma read_file_spec (env : Env) (file_type blob : string) (b : Bucket) :
  read_file env file_type blob b
  = (Ok (file_outcome env b file_type blob), b, [DownloadBytes blob]).
Proof.
  unfold read_file, try_except, bind, Storage.download_as_bytes, file_outcome, ret.
  destruct (download_as_bytes_raises env blob); [done |].
  destruct (Storage.get blob b); done.
Qed.

Lemma read_loop_spec (env : Env) (file_type : string) (files : list string)
    (dfs : list DataFrame) (upd : list string) (b : Bucket) :
  read_loop env file_type files dfs upd b
  = (Ok (dfs ++ parsed_frames env b file_type files,
         pending env b file_type files upd),
     b, DownloadBytes <$> files).
Proof.
  revert dfs upd. induction files as [|blob rest IH]; intros dfs upd.
  - simpl. unfold ret. by rewrite app_nil_r.
  - cbn [read_loop]. unfold bind at 1. rewrite read_file_spec.
    unfold parsed_frames. cbn [flat_map pending].
    fold (parsed_frames env b file_type rest).
    destruct (file_outcome env b file_type blob) as [df | |]; rewrite IH.
    + by rewrite <- app_assoc.
    + done.
    + cbn [is_failed]. destruct (mem (basename blob) upd) eqn:E; [done |].
      apply mem_false in E. by rewrite remove_absent.
Qed.

End Loops.

(* ===================================================================== *)
(** ** What one run does *)
(* ===================================================================== *)

Section Run.

Import PyStr.

Variables (env : Env) (bucket_name prefix file_type : string)
          (file_prefix : option string) (delimiter read_log_file : bool).

Lemma ingest_spec (far : list string) (log_blob : option string)
    (blobs : list string) (b : Bucket) :
  let tr := filter (fun blob => kept read_log_file far blob = true)
                   (candidate_files file_type file_prefix blobs) in
  let frames := parsed_frames env b file_type tr in
  let pend := pending env b file_type tr (basename <$> tr) in
  let write :=
    match log_blob with
    | Some name =>
        if read_log_file && nonempty frames && nonempty pend
        then Some (name, join newline (far ++ pend)) else None
    | None => None
    end in
  ingest env file_type file_prefix read_log_file far log_blob blobs b
  = (Ok (match pd_concat frames with Ok d => d | Raise => pd_DataFrame end),
     match write with
     | Some (name, content) =>
         if upload_raises env then b else Storage.put name content b
     | None => b
     end,
     (DownloadBytes <$> tr)
     ++ match write with
        | Some (name, content) => [Upload name content]
        | None => []
        end).
Proof.
  cbv zeta. unfold ingest.
  destruct (candidate_files file_type file_prefix blobs) as [|c cs] eqn:Hc.
  { rewrite filter_nil. cbn.
    destruct log_blob; rewrite ?andb_false_r; reflexivity. }
  rewrite select_files_spec. cbn [app].
  generalize (filter (fun blob => kept read_log_file far blob = true) (c :: cs)).
  intros tr. destruct tr as [|t ts].
  { cbn. destruct log_blob; rewrite ?andb_false_r; reflexivity. }
  unfold bind at 1. rewrite read_loop_spec. cbn [app].
  generalize (pending env b file_type (t :: ts) (basename <$> t :: ts)).
  generalize (parsed_frames env b file_type (t :: ts)).
  intros frames pend. destruct frames as [|f fs].
  { cbn [nonempty]. rewrite andb_false_r. cbn.
    destruct log_blob; by rewrite app_nil_r. }
  unfold bind, lift, ret, update_ledger. cbn [pd_concat nonempty].
  rewrite andb_true_r.
  destruct log_blob as [name|].
  - destruct (read_log_file && nonempty pend).
    + unfold try_except, Storage.upload_from_string.
      destruct (upload_raises env); cbn; by rewrite ?app_nil_r.
    + cbn. by rewrite ?app_nil_r.
  - cbn. by rewrite ?app_nil_r.
Qed.

End Run.

(** Decides the guard of the ledger-writing block, then compares. *)
Ltac split_on_write :=
  cbn [andb];
  first
    [ reflexivity
    | match goal with
      | |- context [if nonempty ?f && nonempty ?p then _ else _] =>
          destruct (nonempty f && nonempty p); reflexivity
      end ].

Section RunCases.

Import PyStr.

Variables (env : Env) (bucket_name prefix file_type : string)
          (file_prefix : option string) (delimiter read_log_file : bool).

Abbreviation run :=
  (read_gcs_files_to_dataframes_aserta env bucket_name prefix file_type
     file_prefix delimiter read_log_file).

(** A run whose set-up succeeds: the frame, the bucket and the storage
    calls it ends with. *)
Lemma run_normal (b : Bucket) :
  setup_ok env b prefix read_log_file = true ->
  run b
  = (Ok (final_frame env b prefix file_type file_prefix delimiter read_log_file),
     bucket_after env b prefix file_type file_prefix delimiter read_log_file,
     trace_after env b bucket_name prefix file_type file_prefix delimiter
       read_log_file).
Proof.
  unfold setup_ok. rewrite !andb_true_iff, !negb_true_iff.
  intros [[Hclient Hlist] Hledger].
  unfold read_gcs_files_to_dataframes_aserta, try_except, body.
  unfold bind at 1. unfold Storage.Client. rewrite Hclient.
  unfold bind at 1. unfold read_ledger.
  unfold final_frame, bucket_after, trace_after, ledger_update, setup_trace,
    run_frames, run_pending, run_to_read, to_read, candidates_of, listing,
    ledger_names.
  destruct read_log_file.
  - cbn [negb orb] in Hledger.
    apply andb_true_iff in Hledger as [Hex Htext].
    apply negb_true_iff in Hex.
    unfold bind at 1. unfold Storage.blob_exists. rewrite Hex.
    destruct (Storage.get (log_blob_name prefix) b) as [content|] eqn:Hget.
    + apply negb_true_iff in Htext.
      unfold bind at 1. unfold Storage.download_as_text.
      rewrite Htext, Hget. unfold ret at 1.
      unfold bind at 1. unfold Storage.list_blobs. rewrite Hlist.
      rewrite ingest_spec. split_on_write.
    + unfold ret at 1.
      unfold bind at 1. unfold Storage.list_blobs. rewrite Hlist.
      rewrite ingest_spec. split_on_write.
  - unfold ret at 1.
    unfold bind at 1. unfold Storage.list_blobs. rewrite Hlist.
    rewrite ingest_spec. split_on_write.
Qed.

(** A run whose set-up raises: the outer handler returns the empty frame;
    nothing was downloaded and nothing written. *)
Lemma run_setup_failed (b : Bucket) :
  setup_ok env b prefix read_log_file = false ->
  exists evs,
    run b = (Ok pd_DataFrame, b, evs)
    /\ Forall (fun e => is_upload e = false /\ is_download e = false) evs.
Proof.
  unfold setup_ok.
  unfold read_gcs_files_to_dataframes_aserta, try_except, body.
  unfold bind at 1. unfold Storage.Client.
  destruct (client_raises env); [intros _; eexists; split; [reflexivity |];
    repeat constructor |].
  unfold bind at 1. unfold read_ledger.
  destruct read_log_file.
  - unfold bind at 1. unfold Storage.blob_exists.
    destruct (exists_raises env); [intros _; eexists; split; [reflexivity |];
      repeat constructor |].
    destruct (Storage.get (log_blob_name prefix) b) as [content|] eqn:Hget.
    + unfold bind at 1. unfold Storage.download_as_text. rewrite Hget.
      destruct (download_as_text_raises env);
        [intros _; eexists; split; [reflexivity |]; repeat constructor |].
      unfold ret at 1. unfold bind at 1. unfold Storage.list_blobs.
      destruct (list_blobs_raises env); [|done].
      intros _; eexists; split; [reflexivity |]; repeat constructor.
    + unfold ret at 1. unfold bind at 1. unfold Storage.list_blobs.
      destruct (list_blobs_raises env); [|done].
      intros _; eexists; split; [reflexivity |]; repeat constructor.
  - unfold ret at 1. unfold bind at 1. unfold Storage.list_blobs.
    destruct (list_blobs_raises env); [|done].
    intros _; eexists; split; [reflexivity |]; repeat constructor.
Qed.

End RunCases.

(* ===================================================================== *)
(** ** The pending-update list *)
(* ===================================================================== *)

Section Pending.

Import PyStr.

Variables (env : Env) (b : Bucket) (file_type : string).

Lemma read_bytes_supported (file_bytes : string) :
  supported file_type -> read_bytes env file_type file_bytes <> Unsupported.
Proof.
  unfold read_bytes. intros [-> | ->]; cbn.
  - by destruct (read_excel env file_bytes).
  - by destruct (read_csv env file_bytes).
Qed.

Lemma read_bytes_unsupported (file_bytes : string) :
  ~ supported file_type ->
  read_bytes env file_type file_bytes = Unsupported.
Proof.
  unfold read_bytes, supported. intros H.
  destruct (String.eqb_spec file_type ".xlsx"); [tauto |].
  destruct (String.eqb_spec file_type ".csv"); [tauto | done].
Qed.

Lemma file_outcome_supported (blob : string) :
  supported file_type -> file_outcome env b file_type blob <> Unsupported.
Proof.
  intros H. unfold file_outcome.
  destruct (download_as_bytes_raises env blob); [done |].
  destruct (Storage.get blob b); [by apply read_bytes_supported | done].
Qed.

Lemma file_outcome_unsupported (blob : string) :
  ~ supported file_type ->
  is_parsed (file_outcome env b file_type blob) = false.
Proof.
  intros H. unfold file_outcome.
  destruct (download_as_bytes_raises env blob); [done |].
  destruct (Storage.get blob b); [|done].
  by rewrite read_bytes_unsupported.
Qed.

Lemma parsed_supported (blob : string) (df : DataFrame) :
  file_outcome env b file_type blob = Parsed df -> supported file_type.
Proof.
  intros H.
  destruct (String.eqb_spec file_type ".xlsx"); [by left |].
  destruct (String.eqb_spec file_type ".csv"); [by right |].
  pose proof (file_outcome_unsupported blob) as Hu.
  rewrite H in Hu. cbn in Hu. unfold supported in Hu.
  exfalso. assert (true = false) by (apply Hu; tauto). done.
Qed.

Lemma parsed_frames_cons (blob : string) (files : list string) :
  parsed_frames env b file_type (blob :: files)
  = match file_outcome env b file_type blob with
    | Parsed df => [setitem df "file" (Text (basename blob))]
    | _ => []
    end ++ parsed_frames env b file_type files.
Proof. done. Qed.

Lemma parsed_frames_none (files : list string) :
  ~ supported file_type -> parsed_frames env b file_type files = [].
Proof.
  intros H. induction files as [|blob rest IH]; [done |].
  rewrite parsed_frames_cons, IH.
  pose proof (file_outcome_unsupported blob H).
  by destruct (file_outcome env b file_type blob).
Qed.

(** The frames accumulated are those of the parsed blobs, one each. *)
Lemma parsed_frames_length (files : list string) :
  length (parsed_frames env b file_type files)
  = length (parsed_names env b file_type files).
Proof.
  unfold parsed_names. induction files as [|blob rest IH]; [done |].
  rewrite parsed_frames_cons, length_app, IH.
  destruct (file_outcome env b file_type blob) eqn:E.
  - rewrite filter_cons_True by (by rewrite E). done.
  - rewrite filter_cons_False by (by rewrite E). done.
  - rewrite filter_cons_False by (by rewrite E). done.
Qed.

Lemma parsed_names_cons (blob : string) (files : list string) :
  parsed_names env b file_type (blob :: files)
  = (if is_parsed (file_outcome env b file_type blob)
     then [basename blob] else [])
    ++ parsed_names env b file_type files.
Proof.
  unfold parsed_names.
  destruct (is_parsed (file_outcome env b file_type blob)) eqn:E.
  - by rewrite filter_cons_True.
  - rewrite filter_cons_False; [done |]. by rewrite E.
Qed.

Lemma elem_of_parsed_names (files : list string) (n : string) :
  n ∈ parsed_names env b file_type files <->
  exists blob df, blob ∈ files /\ basename blob = n
                  /\ file_outcome env b file_type blob = Parsed df.
Proof.
  unfold parsed_names. rewrite list_elem_of_fmap. split.
  - intros (blob & -> & H). apply list_elem_of_filter in H as [Hp Hin].
    destruct (file_outcome env b file_type blob) as [df | |] eqn:E; try done.
    by exists blob, df.
  - intros (blob & df & Hin & <- & E). exists blob. split; [done |].
    apply list_elem_of_filter. by rewrite E.
Qed.

(** Whatever the order of the removals, the names left pending are, with
    their multiplicity, the names of the parsed blobs. *)
Lemma pending_perm (files : list string) (kept_names upd : list string) :
  supported file_type ->
  upd ≡ₚ kept_names ++ (basename <$> files) ->
  pending env b file_type files upd
  ≡ₚ kept_names ++ parsed_names env b file_type files.
Proof.
  intros Hs. revert kept_names upd.
  induction files as [|blob rest IH]; intros kn upd Hupd.
  - done.
  - cbn [pending]. rewrite parsed_names_cons.
    pose proof (file_outcome_supported blob Hs) as Hsup.
    destruct (file_outcome env b file_type blob) as [df | |] eqn:E;
      cbn [is_failed is_parsed]; [| done |].
    + rewrite (IH (kn ++ [basename blob]) upd).
      * by rewrite <- !app_assoc.
      * rewrite Hupd, fmap_cons, <- !app_assoc. done.
    + apply IH. rewrite fmap_cons in Hupd.
      assert (Hin : basename blob ∈ upd).
      { rewrite Hupd. apply elem_of_app. right. left. }
      pose proof (remove_perm _ _ Hin) as Hr.
      rewrite Hr in Hupd.
      rewrite <- Permutation_middle in Hupd.
      by apply Permutation_cons_inv in Hupd.
Qed.

(** Without such a collision the pending names are those of the parsed
    blobs in reading order. *)
Lemma pending_ordered (files : list string) (kept_names : list string) :
  supported file_type ->
  collision_free env b file_type files ->
  (forall blob, blob ∈ files ->
     file_outcome env b file_type blob = Failed ->
     basename blob ∉ kept_names) ->
  pending env b file_type files (kept_names ++ (basename <$> files))
  = kept_names ++ parsed_names env b file_type files.
Proof.
  intros Hs. revert kept_names.
  induction files as [|blob rest IH]; intros kn Hcf Hkn.
  - done.
  - cbn [pending]. rewrite parsed_names_cons, fmap_cons.
    pose proof (file_outcome_supported blob Hs) as Hsup.
    assert (Hcf' : collision_free env b file_type rest).
    { intros b1 b2 df H1 H2. apply Hcf; by right. }
    destruct (file_outcome env b file_type blob) as [df | |] eqn:E;
      cbn [is_failed is_parsed]; [| done |].
    + replace (kn ++ basename blob :: (basename <$> rest))
        with ((kn ++ [basename blob]) ++ (basename <$> rest))
        by (by rewrite <- app_assoc).
      rewrite IH; [by rewrite <- !app_assoc | done |].
      intros blob' Hin Hf Hmem.
      apply elem_of_app in Hmem as [Hmem | Hmem].
      * apply (Hkn blob'); [by right | done | done].
      * apply list_elem_of_singleton in Hmem.
        apply (Hcf blob blob' df); [left | by right | done | done | done].
    + rewrite remove_first by (apply (Hkn blob); [left | done]).
      apply IH; [done |]. intros blob' Hin. apply Hkn. by right.
Qed.

Lemma pending_no_failure (files upd : list string) :
  Forall (fun blob => is_failed (file_outcome env b file_type blob) = false)
         files ->
  pending env b file_type files upd = upd.
Proof.
  intros H. revert upd. induction H as [|blob rest Hb _ IH]; intros upd.
  - done.
  - cbn [pending]. by rewrite Hb, IH.
Qed.

End Pending.

(* ===================================================================== *)
(** ** The bucket after a ledger write *)
(* ===================================================================== *)

Section AfterWrite.

Import PyStr.

Lemma get_put_same (name content : string) (b : Bucket) :
  Storage.get name (Storage.put name content b) = Some content.
Proof.
  induction b as [|[n c] b IH]; simpl.
  - by rewrite String.eqb_refl.
  - destruct (String.eqb n name) eqn:E; simpl; rewrite E; [done | exact IH].
Qed.

Lemma get_put_other (name content other : string) (b : Bucket) :
  other <> name ->
  Storage.get other (Storage.put name content b) = Storage.get other b.
Proof.
  intros Hne. induction b as [|[n c] b IH]; simpl.
  - destruct (String.eqb_spec name other); [by subst | done].
  - destruct (String.eqb_spec n name) as [-> | Hn]; simpl.
    + destruct (String.eqb_spec name other); [by subst | done].
    + by rewrite IH.
Qed.

(** A filter that rejects the written name sees the same object names. *)
Lemma filter_names_put (P : string -> Prop) `{!forall x, Decision (P x)}
    (name content : string) (b : Bucket) :
  ~ P name ->
  filter P (fst <$> Storage.put name content b) = filter P (fst <$> b).
Proof.
  intros Hn. induction b as [|[n c] b IH]; simpl.
  - by rewrite filter_cons_False.
  - destruct (String.eqb_spec n name) as [-> | Hne]; [done |].
    rewrite fmap_cons. cbn [fst].
    rewrite !(filter_cons P n). by rewrite IH.
Qed.

Variables (prefix file_type : string) (file_prefix : option string)
          (delimiter : bool).

(** Writing the ledger object leaves the candidate set as it was. *)
Lemma candidates_put (content : string) (b : Bucket) :
  candidates_of (Storage.put (log_blob_name prefix) content b)
    prefix file_type file_prefix delimiter
  = candidates_of b prefix file_type file_prefix delimiter.
Proof.
  unfold candidates_of, candidate_files, listing.
  rewrite !list_filter_filter. apply filter_names_put.
  rewrite log_blob_not_candidate. intros [H _]. done.
Qed.

Lemma ledger_names_put (content : string) (b : Bucket) :
  ledger_names (Storage.put (log_blob_name prefix) content b) prefix
  = parse_log content.
Proof. unfold ledger_names. by rewrite get_put_same. Qed.

Lemma elem_of_to_read (b : Bucket) (blob : string) :
  blob ∈ to_read b prefix file_type file_prefix delimiter true <->
  blob ∈ candidates_of b prefix file_type file_prefix delimiter
  /\ basename blob ∉ ledger_names b prefix.
Proof.
  unfold to_read. rewrite list_elem_of_filter. unfold kept. cbn [andb].
  rewrite negb_true_iff, mem_false. tauto.
Qed.

End AfterWrite.

(* ===================================================================== *)
(** ** Properties of the routine *)
(* ===================================================================== *)

Section Properties.

Import PyStr.

Variables (env : Env) (bucket_name prefix file_type : string)
          (file_prefix : option string) (delimiter : bool).

Lemma setup_trace_quiet (b : Bucket) (rl : bool) :
  Forall (fun e => is_upload e = false /\ is_download e = false)
         (setup_trace b bucket_name prefix delimiter rl).
Proof.
  unfold setup_trace. destruct rl; [|repeat constructor].
  destruct (Storage.get (log_blob_name prefix) b); repeat constructor.
Qed.

(** With nothing to read a run returns the empty frame at once. *)
Lemma run_nothing_to_read (b : Bucket) (rl : bool) :
  to_read b prefix file_type file_prefix delimiter rl = [] ->
  exists evs,
    read_gcs_files_to_dataframes_aserta env bucket_name prefix file_type
      file_prefix delimiter rl b = (Ok pd_DataFrame, b, evs)
    /\ Forall (fun e => is_upload e = false /\ is_download e = false) evs.
Proof.
  intros Hnone.
  destruct (setup_ok env b prefix rl) eqn:Hs; [|by apply run_setup_failed].
  rewrite run_normal by done.
  unfold final_frame, bucket_after, trace_after, ledger_update, run_frames,
    run_pending, run_to_read.
  rewrite Hnone. cbn [parsed_frames flat_map pd_concat nonempty fmap list_fmap].
  rewrite andb_false_r. eexists. split; [reflexivity |].
  rewrite !app_nil_r. apply setup_trace_quiet.
Qed.

(** Without a parsed frame a run returns the empty frame and writes
    nothing. *)
Lemma run_no_frame (b : Bucket) (rl : bool) :
  parsed_frames env b file_type
    (to_read b prefix file_type file_prefix delimiter rl) = [] ->
  exists evs,
    read_gcs_files_to_dataframes_aserta env bucket_name prefix file_type
      file_prefix delimiter rl b = (Ok pd_DataFrame, b, evs)
    /\ Forall (fun e => is_upload e = false) evs.
Proof.
  intros Hnone.
  destruct (setup_ok env b prefix rl) eqn:Hs.
  - rewrite run_normal by done.
    unfold final_frame, bucket_after, trace_after, ledger_update, run_frames,
      run_to_read.
    rewrite Hnone. cbn [pd_concat nonempty]. rewrite andb_false_r.
    eexists. split; [reflexivity |].
    rewrite app_nil_r. apply Forall_app. split.
    + eapply Forall_impl; [apply setup_trace_quiet |]. by intros e [H _].
    + apply Forall_fmap, Forall_forall. done.
  - destruct (run_setup_failed env bucket_name prefix file_type file_prefix
                delimiter rl b Hs) as (evs & Hrun & Hq).
    exists evs. split; [done |].
    eapply Forall_impl; [exact Hq |]. by intros e [H _].
Qed.

End Properties.

(* ===================================================================== *)
(** ** The return contract *)
(* ===================================================================== *)

(** C2 -- Total, non-raising return contract.  Whatever the arguments, the
    bucket and the behaviour of the storage and parsing collaborators
    (listing, ledger-read, per-file download or parse, ledger-write
    failures), the routine returns a frame and no exception leaves it: the
    frame is the empty one, or the concatenation of the frames parsed. *)
Theorem never_raises (env : Env) (bucket_name prefix file_type : string)
    (file_prefix : option string) (delimiter read_log_file : bool) (b : Bucket) :
  exists df b' evs,
    read_gcs_files_to_dataframes_aserta env bucket_name prefix file_type
      file_prefix delimiter read_log_file b = (Ok df, b', evs)
    /\ (df = pd_DataFrame
        \/ pd_concat (parsed_frames env b file_type
                        (to_read b prefix file_type file_prefix delimiter
                           read_log_file)) = Ok df).
Proof.
  destruct (setup_ok env b prefix read_log_file) eqn:Hs.
  - rewrite run_normal by done. do 3 eexists. split; [reflexivity |].
    unfold final_frame, run_frames, run_to_read.
    destruct (pd_concat _); [by right | by left].
  - destruct (run_setup_failed env bucket_name prefix file_type file_prefix
                delimiter read_log_file b Hs) as (evs & -> & _).
    do 3 eexists. split; [reflexivity | by left].
Qed.

(* ===================================================================== *)
(** ** The candidate filter *)
(* ===================================================================== *)

Lemma trailing_segment_basename (name t : string) :
  trailing_segment name t <-> PyStr.basename name = t.
Proof. unfold trailing_segment. by rewrite basename_spec. Qed.

Lemma is_candidate_spec (file_type : string) (file_prefix : option string)
    (name : string) :
  is_candidate file_type file_prefix name = true
  <-> candidate_spec file_type file_prefix name.
Proof.
  unfold is_candidate, candidate_spec.
  rewrite !andb_true_iff, negb_true_iff, endswith_spec.
  split.
  - intros [[Hend Hpre] Hlog]. split; [done |]. split.
    + intros p ->. apply startswith_spec in Hpre as [rest Hrest].
      exists (PyStr.basename name), rest.
      split; [by apply trailing_segment_basename | done].
    + exists (PyStr.basename name).
      split; [by apply trailing_segment_basename |].
      by apply String.eqb_neq in Hlog.
  - intros (Hend & Hpre & (t & Ht & Hlog)).
    apply trailing_segment_basename in Ht as <-.
    split; [split; [done |] | by apply String.eqb_neq].
    destruct file_prefix as [p|]; [|done].
    destruct (Hpre p eq_refl) as (t & rest & Ht & Hrest).
    apply trailing_segment_basename in Ht as <-.
    apply startswith_spec. by exists rest.
Qed.

(** C7 -- Candidate-filter correctness.  The comprehension keeps a listed
    blob exactly when its name ends with [file_type], its trailing path
    segment starts with [file_prefix] when one is given, and that segment is
    not the ledger file name; the candidates come in listing order.  For
    a_data.csv, b_other.csv, a_data.txt with type .csv and prefix a_, only
    a_data.csv is a candidate. *)
Theorem candidate_filter_correct (file_type : string)
    (file_prefix : option string) (blobs : list string) :
  (forall name,
      name ∈ candidate_files file_type file_prefix blobs
      <-> name ∈ blobs /\ candidate_spec file_type file_prefix name)
  /\ candidate_files file_type file_prefix blobs `sublist_of` blobs
  /\ (forall pre name post,
        blobs = pre ++ name :: post ->
        candidate_files file_type file_prefix blobs
        = candidate_files file_type file_prefix pre
          ++ (if is_candidate file_type file_prefix name then [name] else [])
          ++ candidate_files file_type file_prefix post)
  /\ candidate_files ".csv" (Some "a_")
       ["a_data.csv"; "b_other.csv"; "a_data.txt"] = ["a_data.csv"].
Proof.
  split; [|split; [|split]].
  - intros name. unfold candidate_files. rewrite list_elem_of_filter.
    rewrite is_candidate_spec. tauto.
  - apply sublist_filter.
  - intros pre name post ->. unfold candidate_files.
    rewrite filter_app, filter_cons.
    destruct (is_candidate file_type file_prefix name) eqn:E.
    + by destruct (decide (true = true)).
    + by destruct (decide (false = true)).
  - reflexivity.
Qed.

(* ===================================================================== *)
(** ** Runs that write nothing *)
(* ===================================================================== *)

(** C8 -- Early-exit frame condition.  When the candidate set is empty, or
    the ledger is in use and lists the trailing name of every candidate, the
    routine returns the empty frame, downloads no file and performs no
    ledger write: the bucket is left as it was. *)
Theorem early_exit_no_write (env : Env) (bucket_name prefix file_type : string)
    (file_prefix : option string) (delimiter read_log_file : bool) (b : Bucket) :
  candidates_of b prefix file_type file_prefix delimiter = []
  \/ (read_log_file = true
      /\ forall blob,
           blob ∈ candidates_of b prefix file_type file_prefix delimiter ->
           PyStr.basename blob ∈ ledger_names b prefix) ->
  exists evs,
    read_gcs_files_to_dataframes_aserta env bucket_name prefix file_type
      file_prefix delimiter read_log_file b = (Ok pd_DataFrame, b, evs)
    /\ Forall (fun e => is_upload e = false /\ is_download e = false) evs.
Proof.
  intros H. apply run_nothing_to_read.
  destruct H as [Hnone | [-> Hall]].
  - unfold to_read. by rewrite Hnone.
  - apply elem_of_nil_inv. intros blob Hin.
    apply elem_of_to_read in Hin as [Hc Hn]. apply Hn, Hall, Hc.
Qed.

(** An empty bucket has no candidate: the run leaves it empty. *)
Lemma early_exit_no_write_witness :
  exists evs,
    read_gcs_files_to_dataframes_aserta
      sample_env "bucket" "data" ".csv" None false true []
    = (Ok pd_DataFrame, [], evs)
    /\ Forall (fun e => is_upload e = false /\ is_download e = false) evs.
Proof.
  apply early_exit_no_write. left. reflexivity.
Defined.

(** C9 -- Unsupported file types.  For a [file_type] other than .xlsx and
    .csv the routine returns the empty frame and never writes the ledger
    object, whatever the other arguments; the reading loop accumulates no
    frame, and the names of the blobs it skips as unsupported stay in the
    pending-update list. *)
Theorem unsupported_type_no_write (env : Env)
    (bucket_name prefix file_type : string) (file_prefix : option string)
    (delimiter read_log_file : bool) (b : Bucket) :
  file_type <> ".xlsx" -> file_type <> ".csv" ->
  (exists evs,
      read_gcs_files_to_dataframes_aserta env bucket_name prefix file_type
        file_prefix delimiter read_log_file b = (Ok pd_DataFrame, b, evs)
      /\ Forall (fun e => is_upload e = false) evs)
  /\ (forall files dfs upd b0,
        exists upd',
          read_loop env file_type files dfs upd b0
          = (Ok (dfs, upd'), b0, DownloadBytes <$> files)
          /\ (Forall (fun blob =>
                        file_outcome env b0 file_type blob = Unsupported) files ->
              upd' = upd)).
Proof.
  intros Hx Hc.
  assert (Hu : ~ supported file_type) by (intros [? | ?]; done).
  split.
  - apply run_no_frame. by apply parsed_frames_none.
  - intros files dfs upd b0. eexists. split.
    + rewrite read_loop_spec, parsed_frames_none, app_nil_r by done. reflexivity.
    + intros Hall. apply pending_no_failure.
      eapply Forall_impl; [exact Hall |]. by intros blob ->.
Qed.

(** A run over a bucket holding one .txt file, with the ledger in use. *)
Lemma unsupported_type_no_write_witness :
  (exists evs,
      read_gcs_files_to_dataframes_aserta sample_env "bucket" "data" ".txt"
        None false true [("data/notes.txt", "hello")]
      = (Ok pd_DataFrame, [("data/notes.txt", "hello")], evs)
      /\ Forall (fun e => is_upload e = false) evs)
  /\ (forall files dfs upd b0,
        exists upd',
          read_loop sample_env ".txt" files dfs upd b0
          = (Ok (dfs, upd'), b0, DownloadBytes <$> files)
          /\ (Forall (fun blob =>
                        file_outcome sample_env b0 ".txt" blob = Unsupported)
                     files ->
              upd' = upd)).
Proof.
  apply (unsupported_type_no_write sample_env); done.
Defined.

(* ===================================================================== *)
(** ** Failure of the ledger write *)
(* ===================================================================== *)

Lemma frames_of_parsed (env : Env) (b : Bucket) (file_type : string)
    (files : list string) (blob : string) (df : DataFrame) :
  blob ∈ files -> file_outcome env b file_type blob = Parsed df ->
  parsed_frames env b file_type files <> [].
Proof.
  intros Hin Hp Hnil.
  assert (Hn : PyStr.basename blob ∈ parsed_names env b file_type files).
  { apply elem_of_parsed_names. by exists blob, df. }
  pose proof (parsed_frames_length env b file_type files) as Hlen.
  rewrite Hnil in Hlen. destruct (parsed_names env b file_type files); [|done].
  by apply elem_of_nil in Hn.
Qed.

Lemma pd_concat_rows (dfs : list DataFrame) (df : DataFrame) :
  pd_concat dfs = Ok df -> rows df = concat (rows <$> dfs).
Proof. destruct dfs; [done |]. by intros [= <-]. Qed.

Lemma pd_concat_not_nil (dfs : list DataFrame) :
  dfs <> [] -> exists df, pd_concat dfs = Ok df.
Proof. destruct dfs; [done |]. intros _. by eexists. Qed.

(** C6 -- Ledger-write failure is non-reverting.  In a run that parsed at
    least one file and whose ledger upload raises, the routine still returns
    the concatenation, in reading order, of the frames of all the files
    parsed: the frame it returns when the upload succeeds.  The bucket is
    left as it was, so the files are read again by the next run. *)
Theorem ledger_write_failure_keeps_data (env : Env)
    (bucket_name prefix file_type : string) (file_prefix : option string)
    (delimiter read_log_file : bool) (b : Bucket) :
  setup_ok env b prefix read_log_file = true ->
  upload_raises env = true ->
  (exists blob df,
      blob ∈ to_read b prefix file_type file_prefix delimiter read_log_file
      /\ file_outcome env b file_type blob = Parsed df) ->
  exists df evs,
    read_gcs_files_to_dataframes_aserta env bucket_name prefix file_type
      file_prefix delimiter read_log_file b = (Ok df, b, evs)
    /\ pd_concat (parsed_frames env b file_type
                    (to_read b prefix file_type file_prefix delimiter
                       read_log_file)) = Ok df
    /\ rows df
       = concat (rows <$> parsed_frames env b file_type
                            (to_read b prefix file_type file_prefix delimiter
                               read_log_file))
    /\ value_of
         (read_gcs_files_to_dataframes_aserta (with_upload env false)
            bucket_name prefix file_type file_prefix delimiter read_log_file b)
       = Ok df.
Proof.
  intros Hs Hup (blob & df0 & Hin & Hp).
  pose proof (frames_of_parsed _ _ _ _ _ _ Hin Hp) as Hne.
  destruct (pd_concat_not_nil _ Hne) as [df Hdf].
  exists df. eexists. split; [|split; [exact Hdf | split]].
  - rewrite run_normal by done. unfold bucket_after. rewrite Hup.
    unfold final_frame, run_frames, run_to_read. rewrite Hdf.
    destruct (ledger_update _ _ _ _ _ _ _); reflexivity.
  - by apply pd_concat_rows.
  - rewrite run_normal by exact Hs. unfold value_of. cbn [fst].
    unfold final_frame, run_frames, run_to_read.
    change (parsed_frames (with_upload env false)) with (parsed_frames env).
    by rewrite Hdf.
Qed.

(** One file parsed, the upload of the ledger raising. *)
Lemma ledger_write_failure_keeps_data_witness :
  exists df evs,
    read_gcs_files_to_dataframes_aserta (with_upload sample_env true)
      "bucket" "data" ".csv" None false true [("data/a.csv", "1")]
    = (Ok df, [("data/a.csv", "1")], evs)
    /\ pd_concat (parsed_frames (with_upload sample_env true)
                    [("data/a.csv", "1")] ".csv"
                    (to_read [("data/a.csv", "1")] "data" ".csv" None false true))
       = Ok df
    /\ rows df
       = concat (rows <$> parsed_frames (with_upload sample_env true)
                            [("data/a.csv", "1")] ".csv"
                            (to_read [("data/a.csv", "1")] "data" ".csv" None
                               false true))
    /\ value_of
         (read_gcs_files_to_dataframes_aserta
            (with_upload (with_upload sample_env true) false)
            "bucket" "data" ".csv" None false true [("data/a.csv", "1")])
       = Ok df.
Proof.
  apply ledger_write_failure_keeps_data.
  - reflexivity.
  - reflexivity.
  - exists "data/a.csv". eexists. split; [vm_compute; left | reflexivity].
Defined.

(* ===================================================================== *)
(** ** The ledger round trip *)
(* ===================================================================== *)

Lemma ledger_names_clean (b : Bucket) (prefix : string) :
  Forall clean (ledger_names b prefix).
Proof.
  unfold ledger_names. destruct (Storage.get _ b); [|done].
  apply Forall_forall. intros x. apply parse_log_elem_clean.
Qed.

(** The names a run finds in a ledger it has just extended with clean
    names. *)
Lemma ledger_names_extended (b : Bucket) (prefix : string) (new : list string) :
  Forall clean new ->
  ledger_names
    (Storage.put (log_blob_name prefix)
       (PyStr.join newline (ledger_names b prefix ++ new)) b) prefix
  = ledger_names b prefix ++ new.
Proof.
  intros Hnew. rewrite ledger_names_put. apply parse_log_join_clean.
  apply Forall_app. split; [apply ledger_names_clean | done].
Qed.

(** C5 -- Ledger persistence round-trip.  When a run with the ledger in use
    parses exactly the files named x.csv and y.csv and the upload succeeds,
    the ledger object holds the names read from it before, followed by x.csv
    and y.csv, joined by line breaks; reading the object again with the
    ledger parser gives those names and no other. *)
Theorem ledger_round_trip (env : Env) (bucket_name prefix file_type : string)
    (file_prefix : option string) (delimiter : bool) (b : Bucket)
    (blobx bloby : string) :
  setup_ok env b prefix true = true ->
  upload_raises env = false ->
  filter (fun blob => is_parsed (file_outcome env b file_type blob) = true)
         (to_read b prefix file_type file_prefix delimiter true)
  = [blobx; bloby] ->
  PyStr.basename blobx = "x.csv" ->
  PyStr.basename bloby = "y.csv" ->
  (forall blob,
      blob ∈ to_read b prefix file_type file_prefix delimiter true ->
      file_outcome env b file_type blob = Failed ->
      PyStr.basename blob <> "x.csv" /\ PyStr.basename blob <> "y.csv") ->
  exists df b' evs,
    read_gcs_files_to_dataframes_aserta env bucket_name prefix file_type
      file_prefix delimiter true b = (Ok df, b', evs)
    /\ Storage.get (log_blob_name prefix) b'
       = Some (PyStr.join newline (ledger_names b prefix ++ ["x.csv"; "y.csv"]))
    /\ ledger_names b' prefix = ledger_names b prefix ++ ["x.csv"; "y.csv"].
Proof.
  intros Hs Hup Hparsed Hx Hy Hfail.
  set (tr := to_read b prefix file_type file_prefix delimiter true) in *.
  assert (Hnames : parsed_names env b file_type tr = ["x.csv"; "y.csv"]).
  { unfold parsed_names. rewrite Hparsed. cbn. by rewrite Hx, Hy. }
  assert (Hsup : supported file_type).
  { assert (Hin : blobx ∈ filter
       (fun blob => is_parsed (file_outcome env b file_type blob) = true) tr)
      by (rewrite Hparsed; left).
    apply list_elem_of_filter in Hin as [Hp _].
    destruct (file_outcome env b file_type blobx) as [df | |] eqn:E; try done.
    by eapply parsed_supported. }
  assert (Hcf : collision_free env b file_type tr).
  { intros blob1 blob2 df H1 H2 Hp Hf Heq.
    destruct (Hfail blob2 H2 Hf) as [Hnx Hny].
    assert (Hin : blob1 ∈ [blobx; bloby]).
    { rewrite <- Hparsed. apply list_elem_of_filter. by rewrite Hp. }
    apply elem_of_cons in Hin as [-> | Hin]; [congruence |].
    apply list_elem_of_singleton in Hin as ->. congruence. }
  assert (Hpend : pending env b file_type tr (PyStr.basename <$> tr)
                  = ["x.csv"; "y.csv"]).
  { rewrite <- Hnames.
    apply (pending_ordered env b file_type tr [] Hsup Hcf).
    intros blob _ _ Hin. by apply elem_of_nil in Hin. }
  assert (Hframes : nonempty (parsed_frames env b file_type tr) = true).
  { pose proof (parsed_frames_length env b file_type tr) as Hlen.
    rewrite Hnames in Hlen. by destruct (parsed_frames env b file_type tr). }
  do 3 eexists. split; [by rewrite run_normal |].
  unfold bucket_after, ledger_update, run_pending, run_frames, run_to_read.
  fold tr. rewrite Hpend, Hframes, Hup. cbn [andb nonempty].
  split; [apply get_put_same |].
  apply ledger_names_extended.
  repeat constructor; done.
Qed.

(** A bucket holding data/x.csv and data/y.csv, no ledger yet. *)
Lemma ledger_round_trip_witness :
  exists df b' evs,
    read_gcs_files_to_dataframes_aserta sample_env "bucket" "data" ".csv"
      None false true [("data/x.csv", "1"); ("data/y.csv", "2")]
    = (Ok df, b', evs)
    /\ Storage.get (log_blob_name "data") b'
       = Some (PyStr.join newline
                 (ledger_names [("data/x.csv", "1"); ("data/y.csv", "2")] "data"
                  ++ ["x.csv"; "y.csv"]))
    /\ ledger_names b' "data"
       = ledger_names [("data/x.csv", "1"); ("data/y.csv", "2")] "data"
         ++ ["x.csv"; "y.csv"].
Proof.
  apply (ledger_round_trip sample_env "bucket" "data" ".csv" None false
           [("data/x.csv", "1"); ("data/y.csv", "2")]
           "data/x.csv" "data/y.csv").
  - reflexivity.
  - reflexivity.
  - reflexivity.
  - reflexivity.
  - reflexivity.
  - intros blob Hin Hf. exfalso.
    assert (Hin' : blob ∈ ["data/x.csv"; "data/y.csv"]) by exact Hin.
    apply elem_of_cons in Hin' as [-> | Hin']; [discriminate Hf |].
    apply list_elem_of_singleton in Hin' as ->. discriminate Hf.
Defined.


(* ===================================================================== *)
(** ** Partial failure *)
(* ===================================================================== *)

Lemma remove_skip (x y : string) (l : list string) :
  x <> y -> PyStr.remove x (y :: l) = y :: PyStr.remove x l.
Proof. intros H. simpl. by destruct (String.eqb_spec x y). Qed.

Lemma remove_here (x : string) (l : list string) :
  PyStr.remove x (x :: l) = l.
Proof. simpl. by rewrite String.eqb_refl. Qed.

(** C3 -- Partial-failure isolation.  In a run reading three files A, B, C,
    of which A and C are parsed and B's download or parse raises, B's
    trailing name being neither A's nor C's: the frame returned holds the
    rows of A then the rows of C, each carrying the trailing name of its
    file in the column "file"; C is downloaded after B has failed; the names
    handed to the ledger upload are those read from the ledger followed by
    A's and C's, and B's is not among them. *)
Theorem partial_failure_isolation (env : Env)
    (bucket_name prefix file_type : string) (file_prefix : option string)
    (delimiter : bool) (b : Bucket) (A B C : string) (dfA dfC : DataFrame) :
  setup_ok env b prefix true = true ->
  to_read b prefix file_type file_prefix delimiter true = [A; B; C] ->
  file_outcome env b file_type A = Parsed dfA ->
  file_outcome env b file_type B = Failed ->
  file_outcome env b file_type C = Parsed dfC ->
  PyStr.basename B <> PyStr.basename A ->
  PyStr.basename B <> PyStr.basename C ->
  isolates_failure env bucket_name prefix file_type file_prefix delimiter b
    A B C dfA dfC
  /\ Upload (log_blob_name prefix)
        (PyStr.join newline
           (ledger_names b prefix ++ [PyStr.basename A; PyStr.basename C]))
     ∈ trace_of
         (read_gcs_files_to_dataframes_aserta env bucket_name prefix file_type
            file_prefix delimiter true b).
Proof.
  intros Hs Htr HA HB HC HBA HBC.
  assert (Hframes :
    parsed_frames env b file_type [A; B; C]
    = [setitem dfA "file" (Text (PyStr.basename A));
       setitem dfC "file" (Text (PyStr.basename C))]).
  { unfold parsed_frames. cbn [flat_map]. by rewrite HA, HB, HC. }
  assert (Hpend :
    pending env b file_type [A; B; C] (PyStr.basename <$> [A; B; C])
    = [PyStr.basename A; PyStr.basename C]).
  { cbn [pending fmap list_fmap]. rewrite HA, HB, HC. cbn [is_failed].
    rewrite remove_skip by done. by rewrite remove_here. }
  assert (Hrun :
    read_gcs_files_to_dataframes_aserta env bucket_name prefix file_type
      file_prefix delimiter true b
    = (Ok {| columns :=
               fold_left add_columns
                 (columns <$> [setitem dfA "file" (Text (PyStr.basename A));
                               setitem dfC "file" (Text (PyStr.basename C))]) [];
             rows := rows (setitem dfA "file" (Text (PyStr.basename A)))
                     ++ rows (setitem dfC "file" (Text (PyStr.basename C))) |},
       bucket_after env b prefix file_type file_prefix delimiter true,
       setup_trace b bucket_name prefix delimiter true
       ++ [DownloadBytes A; DownloadBytes B; DownloadBytes C]
       ++ [Upload (log_blob_name prefix)
             (PyStr.join newline
                (ledger_names b prefix
                 ++ [PyStr.basename A; PyStr.basename C]))])).
  { rewrite run_normal by done.
    unfold final_frame, trace_after, ledger_update, run_frames, run_pending,
      run_to_read.
    rewrite Htr, Hframes, Hpend. cbn [pd_concat nonempty andb].
    cbn [concat fmap list_fmap]. by rewrite app_nil_r. }
  assert (Hup :
    Upload (log_blob_name prefix)
      (PyStr.join newline
         (ledger_names b prefix ++ [PyStr.basename A; PyStr.basename C]))
    ∈ setup_trace b bucket_name prefix delimiter true
      ++ [DownloadBytes A; DownloadBytes B; DownloadBytes C]
      ++ [Upload (log_blob_name prefix)
            (PyStr.join newline
               (ledger_names b prefix
                ++ [PyStr.basename A; PyStr.basename C]))]).
  { apply elem_of_app. right. apply elem_of_app. right. left. }
  split; [|by rewrite Hrun].
  eexists _, _, _, (ledger_names b prefix ++ [PyStr.basename A; PyStr.basename C]).
  split; [exact Hrun |]. split; [reflexivity |]. split; [|split; [exact Hup |]].
  - apply sublist_inserts_l, sublist_inserts_r. done.
  - split; [|split].
    + apply elem_of_app. right. left.
    + apply elem_of_app. right. right. left.
    + intros Hin. apply elem_of_app in Hin as [Hin | Hin].
      * assert (HBr : B ∈ to_read b prefix file_type file_prefix delimiter true)
          by (rewrite Htr; right; left).
        apply elem_of_to_read in HBr as [_ HBn]. done.
      * apply elem_of_cons in Hin as [Hin | Hin]; [done |].
        apply list_elem_of_singleton in Hin. done.
Qed.

(** Three files with distinct names under "in", the second one corrupt. *)
Lemma partial_failure_isolation_witness :
  isolates_failure sample_env "bucket" "in" ".csv" None false
    [("in/a.csv", "1"); ("in/b.csv", "corrupt"); ("in/c.csv", "3")]
    "in/a.csv" "in/b.csv" "in/c.csv"
    {| columns := ["value"]; rows := [ {[ "value" := Text "1" ]} ] |}
    {| columns := ["value"]; rows := [ {[ "value" := Text "3" ]} ] |}
  /\ Upload (log_blob_name "in")
       (PyStr.join newline
          (ledger_names
             [("in/a.csv", "1"); ("in/b.csv", "corrupt"); ("in/c.csv", "3")] "in"
           ++ [PyStr.basename "in/a.csv"; PyStr.basename "in/c.csv"]))
     ∈ trace_of
         (read_gcs_files_to_dataframes_aserta sample_env "bucket" "in" ".csv"
            None false true
            [("in/a.csv", "1"); ("in/b.csv", "corrupt"); ("in/c.csv", "3")]).
Proof.
  apply partial_failure_isolation.
  - reflexivity.
  - reflexivity.
  - reflexivity.
  - reflexivity.
  - reflexivity.
  - discriminate.
  - discriminate.
Defined.

(** What the run over [colliding_bucket] does: in/b/x.csv fails, and x.csv
    is written to the ledger all the same, for in/a/x.csv. *)
Example colliding_run_trace :
  trace_of
    (read_gcs_files_to_dataframes_aserta sample_env "bucket" "in" ".csv" None
       false true colliding_bucket)
  = [Connect "bucket"; Exists "in/file_already_read.txt"; ListBlobs "in" None;
     DownloadBytes "in/a/x.csv"; DownloadBytes "in/b/x.csv";
     DownloadBytes "in/y.csv";
     Upload "in/file_already_read.txt" (PyStr.join newline ["x.csv"; "y.csv"])].
Proof. reflexivity. Qed.

(** C3, as worded, fails when the failing file shares its trailing name with
    a parsed one: over [colliding_bucket] the ledger receives x.csv, the
    trailing name of the corrupt in/b/x.csv. *)
Lemma partial_failure_isolation_counterexample :
  ~ partial_failure_claim sample_env "bucket" "in" ".csv" None false
      colliding_bucket "in/a/x.csv" "in/b/x.csv" "in/y.csv"
      {| columns := ["value"]; rows := [ {[ "value" := Text "1" ]} ] |}
      {| columns := ["value"]; rows := [ {[ "value" := Text "3" ]} ] |}.
Proof.
  intros H.
  destruct H as (df & b' & evs & names & _ & _ & _ & _ & HA & _ & HB);
    try reflexivity.
  apply HB. exact HA.
Qed.


(* ===================================================================== *)
(** ** Two runs in a row *)
(* ===================================================================== *)

Lemma add_columns_extends (acc new : list string) :
  exists ext, add_columns acc new = acc ++ ext.
Proof.
  unfold add_columns. revert acc.
  induction new as [|c new IH]; intros acc; simpl.
  - exists []. by rewrite app_nil_r.
  - destruct (PyStr.mem c acc).
    + apply IH.
    + destruct (IH (acc ++ [c])) as [ext ->]. exists ([c] ++ ext).
      by rewrite <- app_assoc.
Qed.

Lemma concat_columns_extend (ls : list (list string)) (acc : list string) :
  exists ext, fold_left add_columns ls acc = acc ++ ext.
Proof.
  revert acc. induction ls as [|l ls IH]; intros acc; simpl.
  - exists []. by rewrite app_nil_r.
  - destruct (add_columns_extends acc l) as [e1 ->].
    destruct (IH (acc ++ e1)) as [e2 ->]. exists (e1 ++ e2).
    by rewrite <- app_assoc.
Qed.

Lemma add_columns_not_nil (new : list string) :
  new <> [] -> add_columns [] new <> [].
Proof.
  destruct new as [|c new]; [done |]. intros _. unfold add_columns. simpl.
  destruct (add_columns_extends [c] new) as [ext Hext].
  unfold add_columns in Hext. by rewrite Hext.
Qed.

Lemma setitem_columns_not_nil (df : DataFrame) (col : string) (v : cell) :
  columns (setitem df col v) <> [].
Proof.
  simpl. destruct (PyStr.mem col (columns df)) eqn:E.
  - apply mem_true in E. intros Hnil. rewrite Hnil in E.
    by apply elem_of_nil in E.
  - by destruct (columns df).
Qed.

Lemma parsed_frames_tagged (env : Env) (b : Bucket) (file_type : string)
    (files : list string) (f : DataFrame) :
  f ∈ parsed_frames env b file_type files ->
  exists blob df,
    blob ∈ files /\ file_outcome env b file_type blob = Parsed df
    /\ f = setitem df "file" (Text (PyStr.basename blob)).
Proof.
  induction files as [|blob rest IH]; [by intros H; apply elem_of_nil in H |].
  rewrite parsed_frames_cons. intros H. apply elem_of_app in H as [H | H].
  - destruct (file_outcome env b file_type blob) as [df | |] eqn:E;
      try (by apply elem_of_nil in H).
    apply list_elem_of_singleton in H as ->.
    exists blob, df. split; [left | done].
  - destruct (IH H) as (blob' & df & Hin & Hp & ->).
    exists blob', df. split; [by right | done].
Qed.

Lemma elem_of_parsed_frames (env : Env) (b : Bucket) (file_type : string)
    (files : list string) (blob : string) (df : DataFrame) :
  blob ∈ files -> file_outcome env b file_type blob = Parsed df ->
  setitem df "file" (Text (PyStr.basename blob))
  ∈ parsed_frames env b file_type files.
Proof.
  induction files as [|blob' rest IH]; [by intros H; apply elem_of_nil in H |].
  rewrite parsed_frames_cons. intros H Hp.
  apply elem_of_cons in H as [<- | H].
  - rewrite Hp. apply elem_of_app. left. left.
  - apply elem_of_app. right. by apply IH.
Qed.

Lemma df_empty_false (cs : list string) (rs : list (gmap string cell)) :
  cs <> [] -> rs <> [] -> df_empty {| columns := cs; rows := rs |} = false.
Proof. by destruct cs, rs. Qed.

(** The frame concatenated from tagged frames has a column, and a row as
    soon as one of them has. *)
Lemma concat_not_empty (frames : list DataFrame) (df f : DataFrame) :
  pd_concat frames = Ok df ->
  (forall g, g ∈ frames -> columns g <> []) ->
  f ∈ frames -> rows f <> [] ->
  df_empty df = false.
Proof.
  intros Hdf Hcols Hin Hrows.
  destruct frames as [|g gs]; [done |]. injection Hdf as <-.
  apply df_empty_false.
  - cbn [fmap list_fmap fold_left].
    destruct (concat_columns_extend (columns <$> gs) (add_columns [] (columns g)))
      as [ext Hext].
    change (list_fmap DataFrame (list string) columns gs) with (columns <$> gs).
    rewrite Hext.
    pose proof (add_columns_not_nil (columns g) (Hcols g ltac:(left))) as Hne.
    by destruct (add_columns [] (columns g)).
  - intros Hnil. apply Hrows.
    assert (Hsub : rows f ∈ rows <$> g :: gs) by (by apply list_elem_of_fmap_2).
    apply list_elem_of_In in Hsub.
    destruct (rows f) as [|r rs]; [done |].
    change (concat (rows <$> g :: gs) = []) in Hnil.
    assert (Hr : In r (concat (rows <$> g :: gs))).
    { apply in_concat. exists (r :: rs). split; [done | by left]. }
    by rewrite Hnil in Hr.
Qed.

(** C4 -- Idempotence under the ledger.  Take a run with the ledger in use
    whose set-up and ledger upload succeed, in which every file read is
    parsed, one of them into at least one row, the trailing names of the
    files read being clean (no surrounding white space, no line break).  It
    returns a frame that is not empty; a second run on the bucket it leaves,
    whatever the collaborators do then, finds every candidate in the ledger:
    nothing is left to read, it returns the empty frame, downloads nothing
    and writes nothing. *)
Theorem idempotence_under_ledger (env1 env2 : Env)
    (bucket_name prefix file_type : string) (file_prefix : option string)
    (delimiter : bool) (b : Bucket) :
  setup_ok env1 b prefix true = true ->
  upload_raises env1 = false ->
  (forall blob,
      blob ∈ to_read b prefix file_type file_prefix delimiter true ->
      is_parsed (file_outcome env1 b file_type blob) = true) ->
  (forall blob,
      blob ∈ to_read b prefix file_type file_prefix delimiter true ->
      clean (PyStr.basename blob)) ->
  (exists blob df,
      blob ∈ to_read b prefix file_type file_prefix delimiter true
      /\ file_outcome env1 b file_type blob = Parsed df /\ rows df <> []) ->
  idempotent_runs env1 env2 bucket_name prefix file_type file_prefix
    delimiter b
  /\ to_read
       (bucket_of
          (read_gcs_files_to_dataframes_aserta env1 bucket_name prefix
             file_type file_prefix delimiter true b))
       prefix file_type file_prefix delimiter true = []
  /\ value_of
       (read_gcs_files_to_dataframes_aserta env2 bucket_name prefix file_type
          file_prefix delimiter true
          (bucket_of
             (read_gcs_files_to_dataframes_aserta env1 bucket_name prefix
                file_type file_prefix delimiter true b)))
     = Ok pd_DataFrame.
Proof.
  intros Hs Hup Hall Hclean (blob0 & df0 & Hin0 & Hp0 & Hrows0).
  set (tr := to_read b prefix file_type file_prefix delimiter true) in *.
  assert (Hpend : pending env1 b file_type tr (PyStr.basename <$> tr)
                  = PyStr.basename <$> tr).
  { apply pending_no_failure, Forall_forall. intros blob Hin.
    specialize (Hall blob Hin).
    by destruct (file_outcome env1 b file_type blob). }
  pose proof (frames_of_parsed _ _ _ _ _ _ Hin0 Hp0) as Hne.
  destruct (pd_concat_not_nil _ Hne) as [df1 Hdf1].
  set (b1 := Storage.put (log_blob_name prefix)
               (PyStr.join newline
                  (ledger_names b prefix ++ (PyStr.basename <$> tr))) b).
  assert (Hrun1 : exists evs1,
    read_gcs_files_to_dataframes_aserta env1 bucket_name prefix file_type
      file_prefix delimiter true b = (Ok df1, b1, evs1)).
  { eexists. rewrite run_normal by done.
    unfold final_frame, bucket_after, ledger_update, run_frames, run_pending,
      run_to_read. fold tr. rewrite Hpend, Hdf1, Hup.
    replace (nonempty (parsed_frames env1 b file_type tr)) with true
      by (by destruct (parsed_frames env1 b file_type tr)).
    replace (nonempty (PyStr.basename <$> tr)) with true
      by (destruct tr; [by apply elem_of_nil in Hin0 | done]).
    reflexivity. }
  destruct Hrun1 as [evs1 Hrun1].
  assert (Hnone : to_read b1 prefix file_type file_prefix delimiter true = []).
  { apply elem_of_nil_inv. intros blob Hin.
    apply elem_of_to_read in Hin as [Hc Hn].
    unfold b1 in Hc, Hn. rewrite candidates_put in Hc.
    rewrite ledger_names_extended in Hn.
    2:{ apply Forall_fmap, Forall_forall. intros x Hx. by apply Hclean. }
    apply Hn. apply elem_of_app.
    destruct (decide (PyStr.basename blob ∈ ledger_names b prefix)) as [|Hnew];
      [by left | right].
    apply list_elem_of_fmap_2. apply elem_of_to_read. done. }
  destruct (run_nothing_to_read env2 bucket_name prefix file_type file_prefix
              delimiter b1 true Hnone) as (evs2 & Hrun2 & Hquiet).
  rewrite Hrun1. unfold bucket_of, value_of. cbn [fst snd].
  split; [|split; [exact Hnone | by rewrite Hrun2]].
  exists df1, b1, evs1, pd_DataFrame, evs2.
  split; [done |]. split; [|done].
  eapply concat_not_empty; [exact Hdf1 | | |].
  - intros g Hg. apply parsed_frames_tagged in Hg as (blob & df & _ & _ & ->).
    apply setitem_columns_not_nil.
  - by apply (elem_of_parsed_frames env1 b file_type tr blob0 df0).
  - cbn [setitem rows]. by destruct (rows df0).
Qed.

(** One file, one row, a clean name. *)
Lemma idempotence_under_ledger_witness :
  idempotent_runs sample_env sample_env "bucket" "data" ".csv" None false
    [("data/a.csv", "1")]
  /\ to_read
       (bucket_of
          (read_gcs_files_to_dataframes_aserta sample_env "bucket" "data"
             ".csv" None false true [("data/a.csv", "1")]))
       "data" ".csv" None false true = []
  /\ value_of
       (read_gcs_files_to_dataframes_aserta sample_env "bucket" "data" ".csv"
          None false true
          (bucket_of
             (read_gcs_files_to_dataframes_aserta sample_env "bucket" "data"
                ".csv" None false true [("data/a.csv", "1")])))
     = Ok pd_DataFrame.
Proof.
  apply idempotence_under_ledger.
  - reflexivity.
  - reflexivity.
  - intros blob Hin. change (blob ∈ ["data/a.csv"]) in Hin.
    apply list_elem_of_singleton in Hin as ->. reflexivity.
  - intros blob Hin. change (blob ∈ ["data/a.csv"]) in Hin.
    apply list_elem_of_singleton in Hin as ->.
    split; [reflexivity | split; [reflexivity | discriminate]].
  - exists "data/a.csv". eexists.
    split; [vm_compute; left | split; [reflexivity | discriminate]].
Defined.

(** The two runs over [padded_bucket]: the name " x.csv" is written to the
    ledger, read back as "x.csv", and the file is read and recorded again. *)
Example padded_runs_trace :
  trace_of
    (read_gcs_files_to_dataframes_aserta sample_env "bucket" "data" ".csv" None
       false true
       (bucket_of
          (read_gcs_files_to_dataframes_aserta sample_env "bucket" "data"
             ".csv" None false true padded_bucket)))
  = [Connect "bucket"; Exists "data/file_already_read.txt";
     DownloadText "data/file_already_read.txt"; ListBlobs "data" None;
     DownloadBytes "data/ x.csv";
     Upload "data/file_already_read.txt"
       (PyStr.join newline ["x.csv"; " x.csv"])].
Proof. reflexivity. Qed.

(** C4, as worded, fails on two buckets.  Over [header_bucket] the only file
    is parsed into a frame without rows, and the first run returns an empty
    frame.  Over [padded_bucket] the second run does not find the name of
    the file in the ledger: it downloads the file and writes the ledger
    again. *)
Lemma idempotence_under_ledger_counterexample :
  ~ idempotence_claim sample_env sample_env "bucket" "data" ".csv" None false
      header_bucket
  /\ ~ idempotence_claim sample_env sample_env "bucket" "data" ".csv" None
        false padded_bucket.
Proof.
  split.
  - intros H.
    destruct H as (df1 & b1 & evs1 & df2 & evs2 & H1 & He1 & _).
    + reflexivity.
    + reflexivity.
    + intros E. vm_compute in E. discriminate E.
    + intros blob Hin. change (blob ∈ ["data/h.csv"]) in Hin.
      apply list_elem_of_singleton in Hin as ->. reflexivity.
    + assert (Hv : value_of
                     (read_gcs_files_to_dataframes_aserta sample_env "bucket"
                        "data" ".csv" None false true header_bucket) = Ok df1)
        by (by rewrite H1).
      vm_compute in Hv. injection Hv as <-. discriminate He1.
  - intros H.
    destruct H as (df1 & b1 & evs1 & df2 & evs2 & H1 & _ & H2 & _ & Hq).
    + reflexivity.
    + reflexivity.
    + intros E. vm_compute in E. discriminate E.
    + intros blob Hin. change (blob ∈ ["data/ x.csv"]) in Hin.
      apply list_elem_of_singleton in Hin as ->. reflexivity.
    + assert (Hb : bucket_of
                     (read_gcs_files_to_dataframes_aserta sample_env "bucket"
                        "data" ".csv" None false true padded_bucket) = b1)
        by (by rewrite H1).
      subst b1.
      assert (Ht : trace_of
                     (read_gcs_files_to_dataframes_aserta sample_env "bucket"
                        "data" ".csv" None false true
                        (bucket_of
                           (read_gcs_files_to_dataframes_aserta sample_env
                              "bucket" "data" ".csv" None false true
                              padded_bucket))) = evs2)
        by (by rewrite H2).
      rewrite padded_runs_trace in Ht. subst evs2.
      rewrite Forall_forall in Hq.
      destruct (Hq (DownloadBytes "data/ x.csv")) as [_ Hd].
      * do 4 right. left.
      * discriminate Hd.
Qed.


(* ===================================================================== *)
(** ** What a run leaves in the ledger *)
(* ===================================================================== *)

Section LedgerAfterRun.

Variables (env : Env) (bucket_name prefix file_type : string)
          (file_prefix : option string) (delimiter : bool).

Abbreviation the_run rl :=
  (read_gcs_files_to_dataframes_aserta env bucket_name prefix file_type
     file_prefix delimiter rl).

(** A run leaves the bucket as it was, or writes the ledger object: the
    names it read from it followed by the pending names, which are the names
    of the files parsed. *)
Lemma bucket_of_run (rl : bool) (b : Bucket) :
  bucket_of (the_run rl b) = b
  \/ (rl = true
      /\ setup_ok env b prefix true = true
      /\ upload_raises env = false
      /\ supported file_type
      /\ run_pending env b prefix file_type file_prefix delimiter true <> []
      /\ bucket_of (the_run rl b)
         = Storage.put (log_blob_name prefix)
             (PyStr.join newline
                (ledger_names b prefix
                 ++ run_pending env b prefix file_type file_prefix delimiter
                      true)) b).
Proof.
  destruct (setup_ok env b prefix rl) eqn:Hs.
  - rewrite run_normal by done. unfold bucket_of. cbn [fst snd].
    unfold bucket_after, ledger_update.
    destruct rl; [|by left]. cbn [andb].
    destruct (run_frames env b prefix file_type file_prefix delimiter true)
      as [|f fs] eqn:Hf; [by left |].
    destruct (run_pending env b prefix file_type file_prefix delimiter true)
      as [|n ns] eqn:Hp; [by left |].
    cbn [nonempty andb].
    destruct (upload_raises env); [by left |]. right.
    repeat split; try done.
    assert (Hin : f ∈ run_frames env b prefix file_type file_prefix delimiter
                        true) by (rewrite Hf; left).
    apply parsed_frames_tagged in Hin as (blob & df & _ & Hparsed & _).
    by eapply parsed_supported.
  - destruct (run_setup_failed env bucket_name prefix file_type file_prefix
                delimiter rl b Hs) as (evs & -> & _). by left.
Qed.

(** The pending names are those of the parsed files, each as many times as
    files of that name were parsed. *)
Lemma run_pending_perm (b : Bucket) (rl : bool) :
  supported file_type ->
  run_pending env b prefix file_type file_prefix delimiter rl
  ≡ₚ parsed_names env b file_type
       (to_read b prefix file_type file_prefix delimiter rl).
Proof.
  intros Hs. unfold run_pending, run_to_read.
  by apply (pending_perm env b file_type _ []).
Qed.

End LedgerAfterRun.

(* ===================================================================== *)
(** ** Ledger soundness *)
(* ===================================================================== *)

(** C1 -- Ledger soundness.  A run with the ledger in use leaves the ledger
    object untouched, or overwrites it with the names it read from it
    followed by new names.  Every new name is the trailing name of a file
    read and parsed in that run.  The trailing name of a file whose download
    or parse failed is not among them, unless a file of the same trailing
    name was parsed in the same run.  When the trailing names of the files
    read are clean, the ledger parser finds in the object, after the run,
    only names it held before and names of files parsed in the run, and a
    failed file whose trailing name no parsed file shares is read again by
    the next run. *)
Theorem ledger_soundness (env : Env) (bucket_name prefix file_type : string)
    (file_prefix : option string) (delimiter : bool) (b : Bucket) :
  exists new,
    (bucket_of
       (read_gcs_files_to_dataframes_aserta env bucket_name prefix file_type
          file_prefix delimiter true b) = b
     \/ bucket_of
          (read_gcs_files_to_dataframes_aserta env bucket_name prefix file_type
             file_prefix delimiter true b)
        = Storage.put (log_blob_name prefix)
            (PyStr.join newline (ledger_names b prefix ++ new)) b)
    /\ (forall n,
          n ∈ new ->
          exists blob df,
            blob ∈ to_read b prefix file_type file_prefix delimiter true
            /\ PyStr.basename blob = n
            /\ file_outcome env b file_type blob = Parsed df)
    /\ (forall blob,
          blob ∈ to_read b prefix file_type file_prefix delimiter true ->
          file_outcome env b file_type blob = Failed ->
          (forall blob' df,
              blob' ∈ to_read b prefix file_type file_prefix delimiter true ->
              file_outcome env b file_type blob' = Parsed df ->
              PyStr.basename blob' <> PyStr.basename blob) ->
          PyStr.basename blob ∉ new)
    /\ ((forall blob,
           blob ∈ to_read b prefix file_type file_prefix delimiter true ->
           clean (PyStr.basename blob)) ->
        (forall n,
            n ∈ ledger_names
                  (bucket_of
                     (read_gcs_files_to_dataframes_aserta env bucket_name
                        prefix file_type file_prefix delimiter true b)) prefix ->
            n ∈ ledger_names b prefix
            \/ exists blob df,
                 blob ∈ to_read b prefix file_type file_prefix delimiter true
                 /\ PyStr.basename blob = n
                 /\ file_outcome env b file_type blob = Parsed df)
        /\ (forall blob,
              blob ∈ to_read b prefix file_type file_prefix delimiter true ->
              file_outcome env b file_type blob = Failed ->
              (forall blob' df,
                  blob' ∈ to_read b prefix file_type file_prefix delimiter true ->
                  file_outcome env b file_type blob' = Parsed df ->
                  PyStr.basename blob' <> PyStr.basename blob) ->
              (PyStr.basename blob
               ∉ ledger_names
                   (bucket_of
                      (read_gcs_files_to_dataframes_aserta env bucket_name
                         prefix file_type file_prefix delimiter true b)) prefix)
              /\ (blob
                  ∈ to_read
                      (bucket_of
                         (read_gcs_files_to_dataframes_aserta env bucket_name
                            prefix file_type file_prefix delimiter true b))
                      prefix file_type file_prefix delimiter true))).
Proof.
  set (tr := to_read b prefix file_type file_prefix delimiter true).
  destruct (bucket_of_run env bucket_name prefix file_type file_prefix
              delimiter true b)
    as [Hsame | (_ & Hs & Hup & Hsup & Hne & Hput)].
  - exists []. rewrite Hsame. split; [by left |]. split; [|split].
    + intros n Hn. by apply elem_of_nil in Hn.
    + intros blob _ _ _ Hn. by apply elem_of_nil in Hn.
    + intros _. split; [by left |].
      intros blob Hin _ _. split; [|done].
      by apply elem_of_to_read in Hin as [_ Hn].
  - set (pend := run_pending env b prefix file_type file_prefix delimiter true)
      in *.
    assert (Hsound : forall n, n ∈ pend ->
              exists blob df, blob ∈ tr /\ PyStr.basename blob = n
                              /\ file_outcome env b file_type blob = Parsed df).
    { intros n Hn. apply elem_of_parsed_names.
      unfold pend in Hn. by rewrite run_pending_perm in Hn. }
    assert (Hfailed : forall blob, blob ∈ tr ->
              (forall blob' df, blob' ∈ tr ->
                 file_outcome env b file_type blob' = Parsed df ->
                 PyStr.basename blob' <> PyStr.basename blob) ->
              PyStr.basename blob ∉ pend).
    { intros blob _ Hshared Hn.
      destruct (Hsound _ Hn) as (blob' & df & Hin' & Heq & Hp).
      by apply (Hshared blob' df). }
    exists pend. rewrite Hput. split; [by right |]. split; [exact Hsound |].
    split; [intros blob Hin _; by apply Hfailed |].
    intros Hclean.
    assert (Hcl : Forall clean pend).
    { apply Forall_forall. intros n Hn.
      destruct (Hsound _ Hn) as (blob & _ & Hin & <- & _). by apply Hclean. }
    rewrite ledger_names_extended by done. split.
    + intros n Hn. apply elem_of_app in Hn as [Hn | Hn]; [by left | right].
      by apply Hsound.
    + intros blob Hin _ Hshared.
      assert (Hnot : PyStr.basename blob ∉ ledger_names b prefix ++ pend).
      { intros Hn. apply elem_of_app in Hn as [Hn | Hn].
        - by apply elem_of_to_read in Hin as [_ Hold].
        - by apply (Hfailed blob). }
      split; [done |].
      apply elem_of_to_read. rewrite candidates_put.
      rewrite ledger_names_extended by done.
      split; [by apply elem_of_to_read in Hin as [Hc _] | done].
Qed.

(** C1, as worded, fails when a file that failed shares its trailing name
    with a file that was parsed: over [colliding_bucket] the corrupt
    in/b/x.csv finds x.csv in the ledger after the run. *)
Lemma ledger_soundness_counterexample :
  ~ ledger_soundness_claim sample_env "bucket" "in" ".csv" None false
      colliding_bucket.
Proof.
  intros [_ H].
  destruct (H "in/b/x.csv") as [Hn _].
  - change ("in/b/x.csv" ∈ ["in/a/x.csv"; "in/b/x.csv"; "in/y.csv"]).
    right. left.
  - reflexivity.
  - apply Hn. change ("x.csv" ∈ ["x.csv"; "y.csv"]). left.
Qed.

(* ===================================================================== *)
(** ** Keying on the trailing name *)
(* ===================================================================== *)

(** Whether a candidate is kept for reading depends on its trailing name
    only. *)
Lemma kept_by_basename (rl : bool) (far : list string) (blob1 blob2 : string) :
  PyStr.basename blob1 = PyStr.basename blob2 ->
  kept rl far blob1 = kept rl far blob2.
Proof. unfold kept. by intros ->. Qed.

(** A blob whose trailing name is in the ledger is not downloaded. *)
Lemma recorded_name_skipped (env : Env) (bucket_name prefix file_type : string)
    (file_prefix : option string) (delimiter : bool) (b : Bucket)
    (blob : string) :
  PyStr.basename blob ∈ ledger_names b prefix ->
  skipped blob
    (trace_of (read_gcs_files_to_dataframes_aserta env bucket_name prefix
                 file_type file_prefix delimiter true b)).
Proof.
  intros Hrec Hd. destruct (setup_ok env b prefix true) eqn:Hs.
  - rewrite run_normal in Hd by done. unfold trace_of, trace_after in Hd.
    cbn [snd] in Hd.
    apply elem_of_app in Hd as [Hd | Hd].
    + pose proof (setup_trace_quiet bucket_name prefix delimiter b true) as Hq.
      rewrite Forall_forall in Hq. by destruct (Hq _ Hd) as [_ Hq'].
    + apply elem_of_app in Hd as [Hd | Hd].
      * apply list_elem_of_fmap in Hd as (blob' & [= <-] & Hin).
        by apply elem_of_to_read in Hin as [_ Hn].
      * destruct (ledger_update _ _ _ _ _ _ _); [|by apply elem_of_nil in Hd].
        by apply list_elem_of_singleton in Hd.
  - destruct (run_setup_failed env bucket_name prefix file_type file_prefix
                delimiter true b Hs) as (evs & Hrun & Hq).
    rewrite Hrun in Hd. unfold trace_of in Hd. cbn [snd] in Hd.
    rewrite Forall_forall in Hq. by destruct (Hq _ Hd) as [_ Hq'].
Qed.

(** No run removes a name from a ledger. *)
Lemma ledger_names_after_run (c : call) (b : Bucket) (prefix n : string) :
  n ∈ ledger_names b prefix ->
  n ∈ ledger_names (bucket_of (run_call c b)) prefix.
Proof.
  intros Hn. unfold run_call.
  destruct (bucket_of_run (call_env c) (call_bucket_name c) (call_prefix c)
              (call_file_type c) (call_file_prefix c) (call_delimiter c)
              (call_read_log_file c) b)
    as [-> | (_ & _ & _ & _ & _ & ->)]; [done |].
  destruct (decide (log_blob_name (call_prefix c) = log_blob_name prefix))
    as [Heq | Hne].
  - assert (Hsame : ledger_names b (call_prefix c) = ledger_names b prefix)
      by (unfold ledger_names; by rewrite Heq).
    unfold ledger_names at 1. rewrite <- Heq, get_put_same.
    rewrite parse_log_join, flat_map_app.
    rewrite (flat_map_parse_log_clean _ (ledger_names_clean b (call_prefix c))).
    apply elem_of_app. left. by rewrite Hsame.
  - unfold ledger_names at 1. rewrite get_put_other by done. exact Hn.
Qed.

Lemma ledger_names_after_calls (calls : list call) (b : Bucket)
    (prefix n : string) :
  n ∈ ledger_names b prefix ->
  n ∈ ledger_names (bucket_after_calls calls b) prefix.
Proof.
  revert b. induction calls as [|c rest IH]; intros b Hn; [done |].
  cbn [bucket_after_calls]. by apply IH, ledger_names_after_run.
Qed.

(** The clean trailing name of a file parsed by a run whose ledger upload
    succeeds is in the ledger afterwards. *)
Lemma parsed_name_recorded (env : Env) (bucket_name prefix file_type : string)
    (file_prefix : option string) (delimiter : bool) (b : Bucket)
    (blob : string) (df : DataFrame) :
  setup_ok env b prefix true = true ->
  upload_raises env = false ->
  blob ∈ to_read b prefix file_type file_prefix delimiter true ->
  file_outcome env b file_type blob = Parsed df ->
  clean (PyStr.basename blob) ->
  PyStr.basename blob
  ∈ ledger_names
      (bucket_of (read_gcs_files_to_dataframes_aserta env bucket_name prefix
                    file_type file_prefix delimiter true b)) prefix.
Proof.
  intros Hs Hup Hin Hp Hclean.
  pose proof (parsed_supported _ _ _ _ _ Hp) as Hsup.
  assert (Hpend : PyStr.basename blob
                  ∈ run_pending env b prefix file_type file_prefix delimiter
                      true).
  { rewrite run_pending_perm by done. apply elem_of_parsed_names.
    by exists blob, df. }
  pose proof (frames_of_parsed _ _ _ _ _ _ Hin Hp) as Hframes.
  rewrite run_normal by done. unfold bucket_of. cbn [fst snd].
  unfold bucket_after, ledger_update. rewrite Hup. cbn [andb].
  replace (nonempty (run_frames env b prefix file_type file_prefix delimiter
                       true)) with true
    by (unfold run_frames, run_to_read;
        by destruct (parsed_frames env b file_type _)).
  replace (nonempty (run_pending env b prefix file_type file_prefix delimiter
                       true)) with true
    by (destruct (run_pending env b prefix file_type file_prefix delimiter true);
        [by apply elem_of_nil in Hpend | done]).
  cbn [andb]. rewrite ledger_names_put, parse_log_join, flat_map_app.
  apply elem_of_app. right. apply list_elem_of_In, in_flat_map.
  exists (PyStr.basename blob). split; [by apply list_elem_of_In |].
  rewrite parse_log_clean by done. by left.
Qed.

(** C10 -- Keying on the trailing name.  For two blobs with the same
    trailing name: the ledger test gives the same answer for both; an entry
    of the ledger with that name has both skipped by any run with the ledger
    in use; and once one of them has been parsed by a run whose ledger
    upload succeeds, the name being clean, both are skipped by every later
    run with the ledger in use, whatever calls were made in between. *)
Theorem trailing_name_keying (env : Env) (bucket_name prefix file_type : string)
    (file_prefix : option string) (delimiter : bool) (b : Bucket)
    (blob1 blob2 : string) :
  PyStr.basename blob1 = PyStr.basename blob2 ->
  (forall rl far, kept rl far blob1 = kept rl far blob2)
  /\ (PyStr.basename blob1 ∈ ledger_names b prefix ->
      forall env' bucket_name' file_type' file_prefix' delimiter',
        skipped blob1
          (trace_of (read_gcs_files_to_dataframes_aserta env' bucket_name'
                       prefix file_type' file_prefix' delimiter' true b))
        /\ skipped blob2
             (trace_of (read_gcs_files_to_dataframes_aserta env' bucket_name'
                          prefix file_type' file_prefix' delimiter' true b)))
  /\ (setup_ok env b prefix true = true ->
      upload_raises env = false ->
      clean (PyStr.basename blob1) ->
      (exists df,
          (blob1 ∈ to_read b prefix file_type file_prefix delimiter true
           /\ file_outcome env b file_type blob1 = Parsed df)
          \/ (blob2 ∈ to_read b prefix file_type file_prefix delimiter true
              /\ file_outcome env b file_type blob2 = Parsed df)) ->
      forall (later : list call) env' bucket_name' file_type' file_prefix'
             delimiter',
        skipped blob1
          (trace_of
             (read_gcs_files_to_dataframes_aserta env' bucket_name' prefix
                file_type' file_prefix' delimiter' true
                (bucket_after_calls later
                   (bucket_of
                      (read_gcs_files_to_dataframes_aserta env bucket_name
                         prefix file_type file_prefix delimiter true b)))))
        /\ skipped blob2
             (trace_of
                (read_gcs_files_to_dataframes_aserta env' bucket_name' prefix
                   file_type' file_prefix' delimiter' true
                   (bucket_after_calls later
                      (bucket_of
                         (read_gcs_files_to_dataframes_aserta env bucket_name
                            prefix file_type file_prefix delimiter true b)))))).
Proof.
  intros Hname. split; [|split].
  - intros rl far. by apply kept_by_basename.
  - intros Hrec env' bn' ft' fp' d'. split; apply recorded_name_skipped.
    + done.
    + by rewrite <- Hname.
  - intros Hs Hup Hclean (df & Hparsed) later env' bn' ft' fp' d'.
    assert (Hrec : PyStr.basename blob1
                   ∈ ledger_names
                       (bucket_of
                          (read_gcs_files_to_dataframes_aserta env bucket_name
                             prefix file_type file_prefix delimiter true b))
                       prefix).
    { destruct Hparsed as [[Hin Hp] | [Hin Hp]].
      - by eapply parsed_name_recorded.
      - rewrite Hname. eapply parsed_name_recorded; try done.
        by rewrite <- Hname. }
    apply (ledger_names_after_calls later) in Hrec.
    split; apply recorded_name_skipped; [done | by rewrite <- Hname].
Qed.

(** The two files of [shared_name_bucket]. *)
Lemma trailing_name_keying_witness :
  (forall rl far, kept rl far "in/a/x.csv" = kept rl far "in/b/x.csv")
  /\ (PyStr.basename "in/a/x.csv" ∈ ledger_names shared_name_bucket "in" ->
      forall env' bucket_name' file_type' file_prefix' delimiter',
        skipped "in/a/x.csv"
          (trace_of (read_gcs_files_to_dataframes_aserta env' bucket_name'
                       "in" file_type' file_prefix' delimiter' true
                       shared_name_bucket))
        /\ skipped "in/b/x.csv"
             (trace_of (read_gcs_files_to_dataframes_aserta env' bucket_name'
                          "in" file_type' file_prefix' delimiter' true
                          shared_name_bucket)))
  /\ (setup_ok sample_env shared_name_bucket "in" true = true ->
      upload_raises sample_env = false ->
      clean (PyStr.basename "in/a/x.csv") ->
      (exists df,
          ("in/a/x.csv" ∈ to_read shared_name_bucket "in" ".csv" None false true
           /\ file_outcome sample_env shared_name_bucket ".csv" "in/a/x.csv"
              = Parsed df)
          \/ ("in/b/x.csv" ∈ to_read shared_name_bucket "in" ".csv" None false
                               true
              /\ file_outcome sample_env shared_name_bucket ".csv" "in/b/x.csv"
                 = Parsed df)) ->
      forall (later : list call) env' bucket_name' file_type' file_prefix'
             delimiter',
        skipped "in/a/x.csv"
          (trace_of
             (read_gcs_files_to_dataframes_aserta env' bucket_name' "in"
                file_type' file_prefix' delimiter' true
                (bucket_after_calls later
                   (bucket_of
                      (read_gcs_files_to_dataframes_aserta sample_env "bucket"
                         "in" ".csv" None false true shared_name_bucket)))))
        /\ skipped "in/b/x.csv"
             (trace_of
                (read_gcs_files_to_dataframes_aserta env' bucket_name' "in"
                   file_type' file_prefix' delimiter' true
                   (bucket_after_calls later
                      (bucket_of
                         (read_gcs_files_to_dataframes_aserta sample_env
                            "bucket" "in" ".csv" None false true
                            shared_name_bucket)))))).
Proof.
  apply (trailing_name_keying sample_env "bucket" "in" ".csv" None false
           shared_name_bucket "in/a/x.csv" "in/b/x.csv").
  reflexivity.
Defined.

(** The run that follows a run over [shared_name_bucket] whose ledger upload
    raised: both files are downloaded again. *)
Example unrecorded_runs_trace :
  trace_of
    (read_gcs_files_to_dataframes_aserta sample_env "bucket" "in" ".csv" None
       false true
       (bucket_of
          (read_gcs_files_to_dataframes_aserta (with_upload sample_env true)
             "bucket" "in" ".csv" None false true shared_name_bucket)))
  = [Connect "bucket"; Exists "in/file_already_read.txt"; ListBlobs "in" None;
     DownloadBytes "in/a/x.csv"; DownloadBytes "in/b/x.csv";
     Upload "in/file_already_read.txt" (PyStr.join newline ["x.csv"; "x.csv"])].
Proof. reflexivity. Qed.

(** C10, as worded, fails when the ledger upload raises: both files of
    [shared_name_bucket] are parsed by the first run, nothing is recorded,
    and the next run downloads both again. *)
Lemma trailing_name_keying_counterexample :
  ~ trailing_name_claim (with_upload sample_env true) sample_env "bucket" "in"
      ".csv" None false shared_name_bucket "in/a/x.csv" "in/b/x.csv".
Proof.
  intros H. destruct H as [_ H].
  - change ("in/a/x.csv" ∈ ["in/a/x.csv"; "in/b/x.csv"]). left.
  - change ("in/b/x.csv" ∈ ["in/a/x.csv"; "in/b/x.csv"]). right. left.
  - discriminate.
  - reflexivity.
  - destruct H as [H1 _].
    + reflexivity.
    + left. split; [|reflexivity].
      change ("in/a/x.csv" ∈ ["in/a/x.csv"; "in/b/x.csv"]). left.
    + apply H1. rewrite unrecorded_runs_trace. do 3 right. left.
Qed.

(* ===================================================================== *)
(** ** Adjusted account codes *)
(* ===================================================================== *)

Section SliceFacts.

Import PySlice.

Lemma append_nil_r (s : string) : s +:+ EmptyString = s.
Proof. induction s as [|c s IH]; [done |]. by rewrite append_cons, IH. Qed.

Lemma length_append (s t : string) :
  String.length (s +:+ t) = String.length s + String.length t.
Proof.
  induction s as [|c s IH]; [done |]. rewrite append_cons. simpl. by rewrite IH.
Qed.

Lemma length_repeat_char (c : ascii) (n : nat) :
  String.length (repeat_char c n) = n.
Proof. induction n as [|n IH]; [done |]. simpl. by rewrite IH. Qed.

Lemma ljust_nil (n : nat) (c : ascii) :
  ljust (S n) c EmptyString = String c (ljust n c EmptyString).
Proof. unfold ljust. simpl. by rewrite Nat.sub_0_r. Qed.

Lemma ljust_cons (n : nat) (c a : ascii) (s : string) :
  ljust (S n) c (String a s) = String a (ljust n c s).
Proof. unfold ljust. by rewrite append_cons. Qed.

Lemma ljust_full (n : nat) (c : ascii) (s : string) :
  n <= String.length s -> ljust n c s = s.
Proof.
  intros H. unfold ljust. replace (n - String.length s) with 0 by lia.
  apply append_nil_r.
Qed.

Lemma length_ljust (n : nat) (c : ascii) (s : string) :
  String.length s <= n -> String.length (ljust n c s) = n.
Proof.
  intros H. unfold ljust. rewrite length_append, length_repeat_char. lia.
Qed.

(** Padding with the character that was stripped undoes the stripping. *)
Lemma ljust_rstrip_char (c : ascii) (s : string) (n : nat) :
  String.length s <= n -> ljust n c (rstrip_char c s) = ljust n c s.
Proof.
  revert n. induction s as [|a s IH]; intros n Hn; [done |].
  destruct n as [|n]; [simpl in Hn; lia |].
  simpl in Hn. specialize (IH n ltac:(lia)).
  rewrite ljust_cons. cbn [rstrip_char].
  destruct (rstrip_char c s) as [|b r].
  - destruct (Ascii.eqb_spec a c) as [-> | Hne].
    + by rewrite ljust_nil, IH.
    + by rewrite ljust_cons, IH.
  - by rewrite ljust_cons, IH.
Qed.

Lemma length_substring_le (i m : nat) (s : string) :
  String.length (String.substring i m s) <= m.
Proof.
  revert i m. induction s as [|a s IH]; intros i m.
  - destruct i, m; simpl; lia.
  - destruct i as [|i].
    + destruct m as [|m]; simpl; [lia |]. specialize (IH 0 m). lia.
    + simpl. apply IH.
Qed.

Lemma length_substring_full (i m : nat) (s : string) :
  i + m <= String.length s -> String.length (String.substring i m s) = m.
Proof.
  revert i m. induction s as [|a s IH]; intros i m H.
  - simpl in H. destruct i, m; simpl in *; lia.
  - simpl in H. destruct i as [|i].
    + destruct m as [|m]; simpl; [done |]. rewrite (IH 0 m); lia.
    + simpl. apply IH. lia.
Qed.

Lemma substring_app_tail (pre t : string) :
  String.substring (String.length pre) (String.length t) (pre +:+ t) = t.
Proof.
  induction pre as [|a pre IH].
  - rewrite append_nil_l. simpl String.length.
    induction t as [|b t IHt]; [done |]. simpl. by rewrite IHt.
  - rewrite append_cons. simpl. exact IH.
Qed.

Lemma last_chars_app (k : nat) (pre t : string) :
  String.length t = k -> last_chars k (pre +:+ t) = t.
Proof.
  intros <-. unfold last_chars. rewrite length_append.
  replace (String.length pre + String.length t - String.length t)
    with (String.length pre) by lia.
  apply substring_app_tail.
Qed.

Lemma get_app_tail (pre : string) (c : ascii) (t : string) :
  String.get (String.length pre) (pre +:+ String c t) = Some c.
Proof.
  induction pre as [|a pre IH]; [done |]. rewrite append_cons. exact IH.
Qed.

Lemma char_from_end_app (pre : string) (c : ascii) (t : string) :
  char_from_end (S (String.length t)) (pre +:+ String c t) = Ok c.
Proof.
  unfold char_from_end. rewrite length_append. simpl String.length.
  replace (S (String.length t) <=? String.length pre + S (String.length t))%nat
    with true by (symmetry; apply Nat.leb_le; lia).
  replace (String.length pre + S (String.length t) - S (String.length t))
    with (String.length pre) by lia.
  by rewrite get_app_tail.
Qed.

(** A string of three characters or more ends with three characters. *)
Lemma split_last_three (x : string) :
  3 <= String.length x ->
  exists pre c a b,
    x = pre +:+ String c (String a (String b EmptyString)).
Proof.
  induction x as [|h x IH]; [simpl; lia |]. intros Hlen. simpl in Hlen.
  destruct (decide (3 <= String.length x)) as [Hx | Hx].
  - destruct (IH Hx) as (pre & c & a & b & ->).
    exists (String h pre), c, a, b. by rewrite append_cons.
  - destruct x as [|a [|b [|? ?]]]; simpl in *; try lia.
    by exists EmptyString, h, a, b.
Qed.

End SliceFacts.


Section AccountCodes.

Import PySlice.

Lemma to_int_not_nil (z : Z) :
  Z.to_int z <> Decimal.Pos Decimal.Nil /\ Z.to_int z <> Decimal.Neg Decimal.Nil.
Proof.
  destruct z as [|p|p]; simpl; split; try done.
  - intros [= H]. by apply DecimalPos.Unsigned.to_uint_nonnil in H.
  - intros [= H]. by apply DecimalPos.Unsigned.to_uint_nonnil in H.
Qed.

(** The text of an integer reads back as that integer. *)
Lemma int_of_str_int (z : Z) :
  DecimalString.NilZero.int_of_string (str_int z) = Some (Z.to_int z).
Proof.
  destruct (to_int_not_nil z). by apply DecimalString.NilZero.isi.
Qed.

Lemma str_int_canonical (z : Z) (d : Decimal.int) :
  DecimalString.NilZero.int_of_string (str_int z) = Some d ->
  Z.to_int (Z.of_int d) = d.
Proof.
  rewrite int_of_str_int. intros [= <-]. by rewrite DecimalZ.of_to.
Qed.

Lemma str_int_not_00 (z : Z) : str_int z <> "00".
Proof.
  intros H. pose proof (str_int_canonical z) as Hc. rewrite H in Hc.
  specialize (Hc _ eq_refl). discriminate Hc.
Qed.

Lemma str_int_not_minus_00 (z : Z) : str_int z <> "-00".
Proof.
  intros H. pose proof (str_int_canonical z) as Hc. rewrite H in Hc.
  specialize (Hc _ eq_refl). discriminate Hc.
Qed.

Lemma uint_digits (d : Decimal.uint) (n : nat) (c : ascii) :
  String.get n (DecimalString.NilEmpty.string_of_uint d) = Some c ->
  is_digit c = true.
Proof.
  revert n. induction d; intros n; simpl; try done;
    (destruct n as [|n]; [by intros [= <-] | apply IHd]).
Qed.

(** The characters of the text of an integer are digits, but for the sign
    that comes first when it is negative. *)
Lemma str_int_chars (z : Z) (n : nat) (c : ascii) :
  String.get n (str_int z) = Some c ->
  is_digit c = true \/ (n = 0 /\ c = "-"%char).
Proof.
  unfold str_int. destruct z as [|p|p]; simpl.
  - destruct n as [|[|n]]; simpl; try done. intros [= <-]. by left.
  - unfold DecimalString.NilZero.string_of_uint.
    intros H. left.
    destruct (Pos.to_uint p) eqn:E;
      try (by eapply (uint_digits _ n); rewrite <- E in H; exact H).
    by apply DecimalPos.Unsigned.to_uint_nonnil in E.
  - destruct n as [|n]; [intros [= <-]; by right |].
    unfold DecimalString.NilZero.string_of_uint.
    intros H. left.
    destruct (Pos.to_uint p) eqn:E;
      try (by eapply (uint_digits _ n); rewrite <- E in H; exact H).
    by apply DecimalPos.Unsigned.to_uint_nonnil in E.
Qed.

(** A string ending in "00" that is not "00" has three characters at
    least. *)
Lemma ends_00_length (x : string) :
  last_chars 2 x = "00" -> x <> "00" -> 3 <= String.length x.
Proof.
  intros H Hne.
  destruct x as [|a [|b [|c x]]]; simpl; try lia; try done.
Qed.

Lemma last_three_two (pre : string) (c a b : ascii) :
  last_chars 3 (pre +:+ String c (String a (String b EmptyString)))
  = String c (String a (String b EmptyString))
  /\ last_chars 2 (pre +:+ String c (String a (String b EmptyString)))
     = String a (String b EmptyString)
  /\ char_from_end 3 (pre +:+ String c (String a (String b EmptyString)))
     = Ok c.
Proof.
  split; [by apply last_chars_app |]. split.
  - replace (pre +:+ String c (String a (String b EmptyString)))
      with ((pre +:+ String c EmptyString) +:+ String a (String b EmptyString))
      by (by rewrite append_assoc).
    by apply last_chars_app.
  - apply (char_from_end_app pre c (String a (String b EmptyString))).
Qed.



End AccountCodes.



Lemma cuenta_ajustada_main (x : string) :
  PySlice.last_chars 3 x = "000" ->
  cuenta_ajustada x = Ok (PySlice.ljust 4 "0"%char (PySlice.slice 1 5 x)).
Proof.
  intros H3. unfold cuenta_ajustada. rewrite H3.
  change (String.eqb "000" "000") with true. cbv iota.
  rewrite ljust_rstrip_char; [done | apply length_substring_le].
Qed.

(** X2 -- Main accounts.  For an account whose text ends in "000" the
    adjusted code has exactly four characters: characters 2 to 5 of the text,
    completed with zeros on the right; stripping the zeros before padding
    changes nothing.  When the text has five characters or more the code is
    exactly its characters 2 to 5. *)
Theorem main_account_code (x : string) :
  PySlice.last_chars 3 x = "000" ->
  cuenta_ajustada x = Ok (PySlice.ljust 4 "0"%char (PySlice.slice 1 5 x))
  /\ String.length (PySlice.ljust 4 "0"%char (PySlice.slice 1 5 x)) = 4
  /\ (5 <= String.length x -> cuenta_ajustada x = Ok (PySlice.slice 1 5 x)).
Proof.
  intros H3.
  assert (Hlen : String.length (PySlice.slice 1 5 x) <= 4)
    by apply length_substring_le.
  split; [by apply cuenta_ajustada_main |]. split; [by apply length_ljust |].
  intros H5. rewrite cuenta_ajustada_main by done. f_equal. apply ljust_full.
  unfold PySlice.slice. rewrite length_substring_full; simpl; lia.
Qed.

(** The account 1102030000. *)
Lemma main_account_code_witness :
  cuenta_ajustada "1102030000"
  = Ok (PySlice.ljust 4 "0"%char (PySlice.slice 1 5 "1102030000"))
  /\ String.length (PySlice.ljust 4 "0"%char (PySlice.slice 1 5 "1102030000"))
     = 4
  /\ (5 <= String.length "1102030000" ->
      cuenta_ajustada "1102030000" = Ok (PySlice.slice 1 5 "1102030000")).
Proof. apply main_account_code. reflexivity. Defined.

(** X3 -- Secondary accounts.  For an integer whose text ends in "00" but
    not in "000", the character three places from the end is a digit from 1
    to 9, and the adjusted code is characters 2 to 5 of the text without
    their trailing zeros, followed by "0" and that digit. *)
Theorem secondary_account_code (z : Z) :
  PySlice.last_chars 2 (str_int z) = "00" ->
  PySlice.last_chars 3 (str_int z) <> "000" ->
  exists d,
    PySlice.is_digit d = true /\ d <> "0"%char
    /\ PySlice.char_from_end 3 (str_int z) = Ok d
    /\ cuenta_ajustada (str_int z)
       = Ok (PySlice.rstrip_char "0"%char (PySlice.slice 1 5 (str_int z))
             +:+ String "0"%char (String d EmptyString)).
Proof.
  intros H2 H3.
  pose proof (ends_00_length _ H2 (str_int_not_00 z)) as Hlen.
  destruct (split_last_three _ Hlen) as (pre & c & a & b & Hx).
  destruct (last_three_two pre c a b) as (E3 & E2 & Ec).
  rewrite <- Hx in E3, E2, Ec.
  rewrite E2 in H2. injection H2 as -> ->.
  assert (Hc0 : c <> "0"%char) by (intros ->; by rewrite E3 in H3).
  assert (Hget : String.get (String.length pre) (str_int z) = Some c)
    by (rewrite Hx; apply get_app_tail).
  assert (Hdigit : PySlice.is_digit c = true).
  { destruct (str_int_chars _ _ _ Hget) as [Hd | [Hpre ->]]; [done |].
    destruct pre; [|done]. rewrite append_nil_l in Hx.
    by apply str_int_not_minus_00 in Hx. }
  exists c. split; [done |]. split; [done |]. split; [done |].
  unfold cuenta_ajustada.
  destruct (String.eqb_spec (PySlice.last_chars 3 (str_int z)) "000"); [done |].
  rewrite E2, Ec. cbn [String.eqb andb negb].
  change (String.eqb "00" "00") with true. cbv iota. do 2 f_equal.
  unfold PySlice.zfill. cbn [String.length Nat.sub PySlice.repeat_char].
  destruct (Ascii.eqb_spec c "+"%char) as [-> | _]; [done |].
  destruct (Ascii.eqb_spec c "-"%char) as [-> | _]; [done |].
  reflexivity.
Qed.

(** The account 1102030100. *)
Lemma secondary_account_code_witness :
  exists d,
    PySlice.is_digit d = true /\ d <> "0"%char
    /\ PySlice.char_from_end 3 (str_int 1102030100) = Ok d
    /\ cuenta_ajustada (str_int 1102030100)
       = Ok (PySlice.rstrip_char "0"%char
               (PySlice.slice 1 5 (str_int 1102030100))
             +:+ String "0"%char (String d EmptyString)).
Proof. apply secondary_account_code; [reflexivity | discriminate]. Defined.

(* ===================================================================== *)
(** ** Looking accounts up *)
(* ===================================================================== *)

Section Lookup.

Import PySlice.







End Lookup.






(* ===================================================================== *)
(** ** Batched upload *)
(* ===================================================================== *)

Section Batches.

Context {A : Type}.
Implicit Types (l : list A) (cn m n : nat).

(** The first [m] batches of [cn] rows are the first [m * cn] rows. *)
Lemma concat_chunks cn m l :
  concat ((fun k => take cn (drop (k * cn) l)) <$> seq 0 m)
  = take (m * cn) l.
Proof.
  induction m as [|m IH]; [done |].
  rewrite seq_S, fmap_app, concat_app, IH. cbn [fmap list_fmap concat].
  rewrite app_nil_r, take_take_drop. f_equal. lia.
Qed.

Lemma chunk_count_covers n cn : 0 < cn -> n <= chunk_count n cn * cn.
Proof.
  intros Hc. unfold chunk_count. destruct (Nat.eqb_spec n 0) as [-> | Hn]; [lia |].
  pose proof (Nat.div_mod_eq (n - 1) cn) as Hdm.
  pose proof (Nat.mod_upper_bound (n - 1) cn ltac:(lia)) as Hlt.
  nia.
Qed.

Lemma chunk_count_tight n cn k :
  0 < cn -> k < chunk_count n cn -> k * cn < n.
Proof.
  intros Hc. unfold chunk_count. destruct (Nat.eqb_spec n 0) as [-> | Hn]; [lia |].
  pose proof (Nat.div_mod_eq (n - 1) cn) as Hdm.
  intros Hk. nia.
Qed.

Lemma iloc_chunk cn k l :
  iloc (Z.of_nat (k * cn)) (Z.of_nat (k * cn) + Z.of_nat cn) l
  = take cn (drop (k * cn) l).
Proof.
  unfold iloc. rewrite Nat2Z.id.
  replace (Z.to_nat (Z.of_nat (k * cn) + Z.of_nat cn) - k * cn) with cn by lia.
  done.
Qed.

End Batches.

Lemma py_range_chunks (n cn : nat) :
  0 < cn ->
  py_range 0 (Z.of_nat n) (Z.of_nat cn)
  = Ok ((fun k => Z.of_nat (k * cn)) <$> seq 0 (chunk_count n cn)).
Proof.
  intros Hc. unfold py_range, chunk_count.
  replace (Z.of_nat cn =? 0)%Z with false by (symmetry; apply Z.eqb_neq; lia).
  replace (0 <? Z.of_nat cn)%Z with true by (symmetry; apply Z.ltb_lt; lia).
  f_equal.
  destruct (Nat.eqb_spec n 0) as [-> | Hn].
  - done.
  - replace (Z.of_nat n <=? 0)%Z with false by (symmetry; apply Z.leb_gt; lia).
    replace (Z.of_nat n - 0 - 1)%Z with (Z.of_nat (n - 1)) by lia.
    rewrite <- Nat2Z.inj_div.
    replace (Z.to_nat (Z.of_nat ((n - 1) / cn) + 1)) with ((n - 1) / cn + 1)
      by lia.
    apply list_fmap_ext. intros _ k _. lia.
Qed.

Section Upload.

Variables (env : BQEnv) (df_rows : list (gmap string cell)) (cn : nat)
          (if_exists : string).
Hypothesis cn_pos : 0 < cn.

Lemma upload_loop_app (ks1 ks2 : list Z) (k : nat)
    (table : list (gmap string cell)) :
  upload_loop env df_rows (Z.of_nat cn) if_exists (ks1 ++ ks2) k table
  = match upload_loop env df_rows (Z.of_nat cn) if_exists ks1 k table with
    | (Ok _, table1) =>
        upload_loop env df_rows (Z.of_nat cn) if_exists ks2
          (k + length ks1) table1
    | (Raise, table1) => (Raise, table1)
    end.
Proof.
  revert k table. induction ks1 as [|i ks1 IH]; intros k table.
  - cbn. by rewrite Nat.add_0_r.
  - cbn [app upload_loop length].
    destruct (to_gbq env k _ _ table) as [[[]|] table1]; [|done].
    rewrite IH. by replace (S k + length ks1) with (k + S (length ks1)) by lia.
Qed.

(** The first [m] calls, when none of them raises. *)
Lemma upload_loop_prefix (m : nat) (table : list (gmap string cell)) :
  (forall j, j < m -> to_gbq_raises env j = false) ->
  upload_loop env df_rows (Z.of_nat cn) if_exists
    ((fun k => Z.of_nat (k * cn)) <$> seq 0 m) 0 table
  = (Ok tt,
     if String.eqb if_exists "replace" && (0 <? m)%nat
     then take (m * cn) df_rows
     else table ++ take (m * cn) df_rows).
Proof.
  induction m as [|m IH]; intros Hok.
  - cbn. rewrite andb_false_r. by rewrite app_nil_r.
  - rewrite seq_S, fmap_app, upload_loop_app, IH by (intros j Hj; apply Hok; lia).
    rewrite length_fmap, length_seq. cbn [Nat.add fmap list_fmap upload_loop].
    unfold to_gbq. rewrite (Hok m) by lia. rewrite iloc_chunk.
    destruct m as [|m].
    + cbn [Nat.ltb Nat.leb Nat.mul Z.of_nat Z.eqb andb].
      rewrite andb_false_r, app_nil_r. cbn [drop take].
      destruct (String.eqb if_exists "replace"); cbn [andb].
      * change (String.eqb "replace" "replace") with true. cbv iota.
        by rewrite Nat.add_0_r.
      * change (String.eqb "append" "replace") with false. cbv iota.
        by rewrite Nat.add_0_r.
    + replace (Z.of_nat (S m * cn) =? 0)%Z with false
        by (symmetry; apply Z.eqb_neq; nia).
      cbn [andb]. change (String.eqb "append" "replace") with false. cbv iota.
      replace (0 <? S m)%nat with true by done.
      replace (0 <? S (S m))%nat with true by done.
      rewrite !andb_true_r.
      destruct (String.eqb if_exists "replace").
      * rewrite take_take_drop. do 2 f_equal. lia.
      * rewrite <- app_assoc, take_take_drop. do 3 f_equal. lia.
Qed.

End Upload.

(** X6 -- Batches of [upload_to_bigquery].  For a positive [chunk_size] the
    loop cuts the rows into consecutive batches: put end to end the batches
    are the rows of the frame (no row lost, repeated or displaced), every
    batch holds between 1 and [chunk_size] rows, and there are as many
    batches as [chunk_size] rows fit in, rounding up. *)
Theorem upload_batches_partition (df_rows : list (gmap string cell))
    (chunk_size : Z) :
  (0 < chunk_size)%Z ->
  exists indices,
    py_range 0 (Z.of_nat (length df_rows)) chunk_size = Ok indices
    /\ concat ((fun i => iloc i (i + chunk_size) df_rows) <$> indices) = df_rows
    /\ Forall (fun i =>
                 0 < length (iloc i (i + chunk_size) df_rows)
                 /\ (Z.of_nat (length (iloc i (i + chunk_size) df_rows))
                     <= chunk_size)%Z)
              indices
    /\ length indices = chunk_count (length df_rows) (Z.to_nat chunk_size).
Proof.
  intros Hc. set (cn := Z.to_nat chunk_size).
  assert (Hcn : 0 < cn) by lia.
  replace chunk_size with (Z.of_nat cn) by lia.
  rewrite py_range_chunks by done. eexists. split; [reflexivity |].
  split; [|split].
  - rewrite <- list_fmap_compose.
    erewrite list_fmap_ext; [rewrite concat_chunks | ].
    + apply take_ge. by apply chunk_count_covers.
    + intros _ k _. apply iloc_chunk.
  - apply Forall_fmap, Forall_forall. intros k Hk. cbn.
    apply elem_of_seq in Hk as [_ Hk]. cbn in Hk.
    pose proof (chunk_count_tight (length df_rows) cn k Hcn Hk) as Ht.
    rewrite iloc_chunk, length_take, length_drop. lia.
  - by rewrite length_fmap, length_seq.
Qed.

(** Five rows in batches of two. *)
Lemma upload_batches_partition_witness :
  exists indices,
    py_range 0 (Z.of_nat (length
      [ ({[ "n" := Number 1 ]} : gmap string cell); {[ "n" := Number 2 ]};
        {[ "n" := Number 3 ]}; {[ "n" := Number 4 ]}; {[ "n" := Number 5 ]} ]))
      2 = Ok indices
    /\ concat ((fun i => iloc i (i + 2)
                  [ ({[ "n" := Number 1 ]} : gmap string cell);
                    {[ "n" := Number 2 ]}; {[ "n" := Number 3 ]};
                    {[ "n" := Number 4 ]}; {[ "n" := Number 5 ]} ]) <$> indices)
       = [ {[ "n" := Number 1 ]}; {[ "n" := Number 2 ]}; {[ "n" := Number 3 ]};
           {[ "n" := Number 4 ]}; {[ "n" := Number 5 ]} ]
    /\ Forall (fun i =>
                 0 < length (iloc i (i + 2)
                   [ ({[ "n" := Number 1 ]} : gmap string cell);
                     {[ "n" := Number 2 ]}; {[ "n" := Number 3 ]};
                     {[ "n" := Number 4 ]}; {[ "n" := Number 5 ]} ])
                 /\ (Z.of_nat (length (iloc i (i + 2)
                      [ ({[ "n" := Number 1 ]} : gmap string cell);
                        {[ "n" := Number 2 ]}; {[ "n" := Number 3 ]};
                        {[ "n" := Number 4 ]}; {[ "n" := Number 5 ]} ]))
                     <= 2)%Z)
              indices
    /\ length indices
       = chunk_count (length
           [ ({[ "n" := Number 1 ]} : gmap string cell); {[ "n" := Number 2 ]};
             {[ "n" := Number 3 ]}; {[ "n" := Number 4 ]};
             {[ "n" := Number 5 ]} ]) (Z.to_nat 2).
Proof. apply upload_batches_partition. lia. Defined.

(** X7 -- A complete upload.  When steps 1 to 5 succeed, [chunk_size] is
    positive and no call of [to_gbq] raises, the destination table ends up
    holding the rows of the frame alone if [if_exists] is "replace" and the
    frame has a row, and its former rows followed by those of the frame in
    every other case: any [if_exists] other than "replace" appends, and
    "replace" with a frame without rows leaves the table as it was. *)
Theorem upload_complete (env : BQEnv) (df df' : DataFrame) (chunk_size : Z)
    (if_exists : string) (table : list (gmap string cell)) :
  (0 < chunk_size)%Z ->
  prepare env df = Ok df' ->
  (forall j, to_gbq_raises env j = false) ->
  upload_to_bigquery env df chunk_size if_exists table
  = if String.eqb if_exists "replace" && nonempty (rows df')
    then rows df'
    else table ++ rows df'.
Proof.
  intros Hc Hprep Hok. unfold upload_to_bigquery. rewrite Hprep.
  set (cn := Z.to_nat chunk_size).
  assert (Hcn : 0 < cn) by lia.
  replace chunk_size with (Z.of_nat cn) by lia.
  rewrite py_range_chunks by done.
  rewrite upload_loop_prefix by (done || intros; apply Hok). cbn [snd].
  rewrite (take_ge (rows df')) by (by apply chunk_count_covers).
  replace (0 <? chunk_count (length (rows df')) cn)%nat
    with (nonempty (rows df')); [done |].
  unfold chunk_count. destruct (rows df') as [|r rs]; [done |].
  cbn [nonempty length Nat.eqb]. symmetry. apply Nat.ltb_lt. lia.
Qed.

(** Three rows replace a table of one row, in batches of two. *)
Lemma upload_complete_witness :
  upload_to_bigquery (mkBQEnv (fun d => Ok d) (fun _ => false))
    {| columns := ["n"];
       rows := [ {[ "n" := Number 1 ]}; {[ "n" := Number 2 ]};
                 {[ "n" := Number 3 ]} ] |}
    2 "replace" [ {[ "n" := Number 9 ]} ]
  = if String.eqb "replace" "replace"
       && nonempty (rows {| columns := ["n"];
                            rows := [ {[ "n" := Number 1 ]};
                                      {[ "n" := Number 2 ]};
                                      {[ "n" := Number 3 ]} ] |})
    then rows {| columns := ["n"];
                 rows := [ {[ "n" := Number 1 ]}; {[ "n" := Number 2 ]};
                           {[ "n" := Number 3 ]} ] |}
    else [ {[ "n" := Number 9 ]} ]
         ++ rows {| columns := ["n"];
                    rows := [ {[ "n" := Number 1 ]}; {[ "n" := Number 2 ]};
                              {[ "n" := Number 3 ]} ] |}.
Proof.
  apply (upload_complete (mkBQEnv (fun d => Ok d) (fun _ => false))).
  - lia.
  - reflexivity.
  - reflexivity.
Defined.

(** X8 -- A [chunk_size] of zero or less uploads nothing.  Whatever the
    frame and the collaborators, the destination table is left as it was:
    with zero [range] raises and the outer handler swallows the error, with
    a negative value the loop has no iteration. *)
Theorem upload_nonpositive_chunk (env : BQEnv) (df : DataFrame)
    (chunk_size : Z) (if_exists : string) (table : list (gmap string cell)) :
  (chunk_size <= 0)%Z ->
  upload_to_bigquery env df chunk_size if_exists table = table.
Proof.
  intros Hc. unfold upload_to_bigquery.
  destruct (prepare env df) as [df'|]; [|done].
  unfold py_range. destruct (Z.eqb_spec chunk_size 0) as [-> | Hne]; [done |].
  replace (0 <? chunk_size)%Z with false by (symmetry; apply Z.ltb_ge; lia).
  replace (0 <=? Z.of_nat (length (rows df')))%Z with true
    by (symmetry; apply Z.leb_le; lia).
  reflexivity.
Qed.

(** A negative batch size. *)
Lemma upload_nonpositive_chunk_witness :
  upload_to_bigquery (mkBQEnv (fun d => Ok d) (fun _ => false))
    {| columns := ["n"]; rows := [ {[ "n" := Number 1 ]} ] |}
    (-5) "append" [ {[ "n" := Number 9 ]} ]
  = [ {[ "n" := Number 9 ]} ].
Proof. apply upload_nonpositive_chunk. lia. Defined.

(** X9 -- A failed batch stops the upload and is not rolled back.  When the
    call of [to_gbq] for batch number [k] (from 0) is the first to raise, the
    routine returns all the same, and the table holds what a complete upload
    of the first [k] batches leaves: the first [k * chunk_size] rows of the
    frame, alone under "replace" once a batch went through, after the former
    rows of the table otherwise. *)
Theorem upload_partial (env : BQEnv) (df df' : DataFrame) (chunk_size : Z)
    (if_exists : string) (table : list (gmap string cell)) (k : nat) :
  (0 < chunk_size)%Z ->
  prepare env df = Ok df' ->
  k < chunk_count (length (rows df')) (Z.to_nat chunk_size) ->
  (forall j, j < k -> to_gbq_raises env j = false) ->
  to_gbq_raises env k = true ->
  upload_to_bigquery env df chunk_size if_exists table
  = if String.eqb if_exists "replace" && (0 <? k)%nat
    then take (k * Z.to_nat chunk_size) (rows df')
    else table ++ take (k * Z.to_nat chunk_size) (rows df').
Proof.
  intros Hc Hprep Hk Hok Hfail. unfold upload_to_bigquery. rewrite Hprep.
  set (cn := Z.to_nat chunk_size) in *.
  assert (Hcn : 0 < cn) by lia.
  replace chunk_size with (Z.of_nat cn) by lia.
  rewrite py_range_chunks by done.
  replace (chunk_count (length (rows df')) cn)
    with (k + (chunk_count (length (rows df')) cn - k)) by lia.
  rewrite seq_app, fmap_app, upload_loop_app, upload_loop_prefix by done.
  rewrite length_fmap, length_seq. cbn [Nat.add].
  destruct (chunk_count (length (rows df')) cn - k) as [|rest] eqn:E; [lia |].
  cbn [seq fmap list_fmap upload_loop]. unfold to_gbq. by rewrite Hfail.
Qed.

(** Five rows in batches of two, the second call raising. *)
Lemma upload_partial_witness :
  upload_to_bigquery (mkBQEnv (fun d => Ok d) (fun j => Nat.eqb j 1))
    {| columns := ["n"];
       rows := [ {[ "n" := Number 1 ]}; {[ "n" := Number 2 ]};
                 {[ "n" := Number 3 ]}; {[ "n" := Number 4 ]};
                 {[ "n" := Number 5 ]} ] |}
    2 "append" [ {[ "n" := Number 9 ]} ]
  = if String.eqb "append" "replace" && (0 <? 1)%nat
    then take (1 * Z.to_nat 2)
           [ {[ "n" := Number 1 ]}; {[ "n" := Number 2 ]};
             {[ "n" := Number 3 ]}; {[ "n" := Number 4 ]};
             {[ "n" := Number 5 ]} ]
    else [ {[ "n" := Number 9 ]} ]
         ++ take (1 * Z.to_nat 2)
              [ {[ "n" := Number 1 ]}; {[ "n" := Number 2 ]};
                {[ "n" := Number 3 ]}; {[ "n" := Number 4 ]};
                {[ "n" := Number 5 ]} ].
Proof.
  apply (upload_partial (mkBQEnv (fun d => Ok d) (fun j => Nat.eqb j 1))
           _ {| columns := ["n"];
                rows := [ {[ "n" := Number 1 ]}; {[ "n" := Number 2 ]};
                          {[ "n" := Number 3 ]}; {[ "n" := Number 4 ]};
                          {[ "n" := Number 5 ]} ] |}).
  - lia.
  - reflexivity.
  - vm_compute. lia.
  - intros j Hj. assert (j = 0) as -> by lia. reflexivity.
  - reflexivity.
Defined.


(* ===================================================================== *)
(** ** One spreadsheet *)
(* ===================================================================== *)

(** X10 -- [extraer_excel_gcs] against the ingestion routine.  The one-shot
    reader never modifies the bucket.  It returns a frame exactly when the
    client can be built and the ingestion routine would parse that same
    object as an .xlsx file, into the same frame; it raises exactly when the
    client cannot be built or the ingestion routine would count the object
    as failed (missing object, download error, parse error), a case the
    ingestion routine only logs. *)
Theorem extraer_excel_gcs_outcome (env : Env) (bucket_name file_path : string)
    (b : Bucket) :
  bucket_of (extraer_excel_gcs env bucket_name file_path b) = b
  /\ (forall df,
        value_of (extraer_excel_gcs env bucket_name file_path b) = Ok df
        <-> client_raises env = false
            /\ file_outcome env b ".xlsx" file_path = Parsed df)
  /\ (value_of (extraer_excel_gcs env bucket_name file_path b) = Raise
      <-> client_raises env = true
          \/ file_outcome env b ".xlsx" file_path = Failed).
Proof.
  unfold extraer_excel_gcs, bind, Storage.Client, Storage.download_as_bytes,
    lift, file_outcome, read_bytes, bucket_of, value_of.
  change (String.eqb ".xlsx" ".xlsx") with true. cbv iota.
  destruct (client_raises env); cbn.
  { split; [done |]. split; [intros df; split; [done | by intros [? _]] |].
    split; [by left | done]. }
  destruct (download_as_bytes_raises env file_path); cbn.
  { split; [done |]. split; [intros df; split; [done | by intros [_ ?]] |].
    split; [by right | done]. }
  destruct (Storage.get file_path b) as [file_bytes|]; cbn.
  - destruct (read_excel env file_bytes) as [df0|]; cbn.
    + split; [done |]. split.
      * intros df. split; [by intros [= ->] | by intros [_ [= ->]]].
      * split; [done | by intros [? | ?]].
    + split; [done |]. split; [intros df; split; [done | by intros [_ ?]] |].
      split; [by right | done].
  - split; [done |]. split; [intros df; split; [done | by intros [_ ?]] |].
    split; [by right | done].
Qed.

(* ===================================================================== *)
(** ** More on the ingestion routine *)
(* ===================================================================== *)

Section Ingestion.

Variables (env : Env) (bucket_name prefix file_type : string)
          (file_prefix : option string) (delimiter : bool).

Lemma to_read_no_ledger (b : Bucket) :
  to_read b prefix file_type file_prefix delimiter false
  = candidates_of b prefix file_type file_prefix delimiter.
Proof.
  unfold to_read, kept. cbn [andb negb].
  induction (candidates_of b prefix file_type file_prefix delimiter)
    as [|c cs IH]; [done |].
  by rewrite filter_cons_True, IH.
Qed.

Lemma trace_no_ledger (b : Bucket) :
  Forall (fun e => is_ledger_call e = false)
    (trace_of (read_gcs_files_to_dataframes_aserta env bucket_name prefix
                 file_type file_prefix delimiter false b)).
Proof.
  destruct (setup_ok env b prefix false) eqn:Hs.
  - rewrite run_normal by done. unfold trace_of, trace_after, ledger_update,
      setup_trace. cbn [snd andb app]. rewrite app_nil_r.
    repeat constructor. apply Forall_fmap, Forall_forall. done.
  - unfold setup_ok in Hs. cbn [negb orb] in Hs. rewrite andb_true_r in Hs.
    unfold read_gcs_files_to_dataframes_aserta, try_except, body.
    unfold bind at 1. unfold Storage.Client.
    destruct (client_raises env); [repeat constructor |].
    unfold bind at 1. unfold read_ledger, ret at 1.
    unfold bind at 1. unfold Storage.list_blobs.
    destruct (list_blobs_raises env); [repeat constructor | done].
Qed.

End Ingestion.

(** X11 -- Mode without ledger.  With [read_log_file] false the routine
    never looks at the ledger object and never writes: the bucket is left as
    it was and no exists, download-as-text or upload call is made.  Every
    candidate is to be read, and when the client and the listing succeed the
    storage calls are the connection, the listing and one download per
    candidate, in listing order.  A second run on the bucket left by the
    first returns the same value. *)
Theorem no_ledger_mode (env : Env) (bucket_name prefix file_type : string)
    (file_prefix : option string) (delimiter : bool) (b : Bucket) :
  bucket_of (read_gcs_files_to_dataframes_aserta env bucket_name prefix
               file_type file_prefix delimiter false b) = b
  /\ Forall (fun e => is_ledger_call e = false)
       (trace_of (read_gcs_files_to_dataframes_aserta env bucket_name prefix
                    file_type file_prefix delimiter false b))
  /\ to_read b prefix file_type file_prefix delimiter false
     = candidates_of b prefix file_type file_prefix delimiter
  /\ (client_raises env = false -> list_blobs_raises env = false ->
      trace_of (read_gcs_files_to_dataframes_aserta env bucket_name prefix
                  file_type file_prefix delimiter false b)
      = [Connect bucket_name;
         ListBlobs prefix (if delimiter then Some "/" else None)]
        ++ (DownloadBytes
              <$> candidates_of b prefix file_type file_prefix delimiter))
  /\ value_of
       (read_gcs_files_to_dataframes_aserta env bucket_name prefix file_type
          file_prefix delimiter false
          (bucket_of (read_gcs_files_to_dataframes_aserta env bucket_name
                        prefix file_type file_prefix delimiter false b)))
     = value_of (read_gcs_files_to_dataframes_aserta env bucket_name prefix
                   file_type file_prefix delimiter false b).
Proof.
  assert (Hb : bucket_of (read_gcs_files_to_dataframes_aserta env bucket_name
                            prefix file_type file_prefix delimiter false b) = b).
  { destruct (bucket_of_run env bucket_name prefix file_type file_prefix
                delimiter false b) as [-> | (Hrl & _)]; done. }
  split; [exact Hb |]. split; [apply trace_no_ledger |].
  split; [apply to_read_no_ledger |]. split; [|by rewrite Hb].
  intros Hclient Hlist.
  rewrite run_normal by (unfold setup_ok; by rewrite Hclient, Hlist).
  unfold trace_of, trace_after, ledger_update, setup_trace, run_to_read.
  cbn [snd andb app]. by rewrite app_nil_r, to_read_no_ledger.
Qed.

Lemma names_put (name content : string) (b : Bucket) :
  fst <$> Storage.put name content b
  = match Storage.get name b with
    | Some _ => fst <$> b
    | None => (fst <$> b) ++ [name]
    end.
Proof.
  induction b as [|[n c] b IH]; [done |]. simpl.
  destruct (String.eqb n name); [done |].
  rewrite fmap_cons, IH. cbn [fst]. by destruct (Storage.get name b).
Qed.

(** X12 -- The ledger object is the only object a run can touch.  After any
    run, every object other than the ledger object of the prefix holds what
    it held before; no object has disappeared; at most one object has
    appeared, the ledger object, last in the bucket. *)
Theorem only_ledger_object_changes (env : Env)
    (bucket_name prefix file_type : string) (file_prefix : option string)
    (delimiter read_log_file : bool) (b : Bucket) :
  (forall name,
      name <> log_blob_name prefix ->
      Storage.get name
        (bucket_of (read_gcs_files_to_dataframes_aserta env bucket_name prefix
                      file_type file_prefix delimiter read_log_file b))
      = Storage.get name b)
  /\ (fst <$> bucket_of
                (read_gcs_files_to_dataframes_aserta env bucket_name prefix
                   file_type file_prefix delimiter read_log_file b)
      = fst <$> b
      \/ (Storage.get (log_blob_name prefix) b = None
          /\ fst <$> bucket_of
                       (read_gcs_files_to_dataframes_aserta env bucket_name
                          prefix file_type file_prefix delimiter read_log_file b)
             = (fst <$> b) ++ [log_blob_name prefix])).
Proof.
  destruct (bucket_of_run env bucket_name prefix file_type file_prefix
              delimiter read_log_file b)
    as [-> | (_ & _ & _ & _ & _ & ->)]; [split; [done | by left] |].
  split.
  - intros name Hne. by apply get_put_other.
  - rewrite names_put.
    destruct (Storage.get (log_blob_name prefix) b); [by left | by right].
Qed.

(** X13 -- A ledger only grows.  Whatever the call (collaborators, prefix,
    file type, mode), the names found in the ledger of any prefix before the
    call are found again after it, in the same order and at the head of the
    list: a call never removes or reorders recorded names. *)
Theorem ledger_only_grows (c : call) (b : Bucket) (prefix : string) :
  ledger_names b prefix
  `prefix_of` ledger_names (bucket_of (run_call c b)) prefix.
Proof.
  unfold run_call.
  destruct (bucket_of_run (call_env c) (call_bucket_name c) (call_prefix c)
              (call_file_type c) (call_file_prefix c) (call_delimiter c)
              (call_read_log_file c) b)
    as [-> | (_ & _ & _ & _ & _ & ->)]; [done |].
  destruct (decide (log_blob_name (call_prefix c) = log_blob_name prefix))
    as [Heq | Hne].
  - assert (Hsame : ledger_names b (call_prefix c) = ledger_names b prefix)
      by (unfold ledger_names; by rewrite Heq).
    unfold ledger_names at 2. rewrite <- Heq, get_put_same.
    rewrite parse_log_join, flat_map_app.
    rewrite (flat_map_parse_log_clean _ (ledger_names_clean b (call_prefix c))).
    rewrite Hsame. by apply prefix_app_r.
  - unfold ledger_names at 2. by rewrite get_put_other.
Qed.

(** X14 -- At most one write, and last.  The storage calls of a run are
    calls that write nothing, followed by at most one upload.  The upload
    only happens with the ledger in use; it goes to the ledger object of the
    prefix and carries the names read from the ledger followed by at least
    one new name. *)
Theorem at_most_one_upload (env : Env) (bucket_name prefix file_type : string)
    (file_prefix : option string) (delimiter read_log_file : bool) (b : Bucket) :
  exists quiet,
    Forall (fun e => is_upload e = false) quiet
    /\ (trace_of (read_gcs_files_to_dataframes_aserta env bucket_name prefix
                    file_type file_prefix delimiter read_log_file b) = quiet
        \/ (read_log_file = true
            /\ exists new,
                 new <> []
                 /\ trace_of (read_gcs_files_to_dataframes_aserta env
                                bucket_name prefix file_type file_prefix
                                delimiter read_log_file b)
                    = quiet
                      ++ [Upload (log_blob_name prefix)
                            (PyStr.join newline (ledger_names b prefix ++ new))])).
Proof.
  destruct (setup_ok env b prefix read_log_file) eqn:Hs.
  - rewrite run_normal by done. unfold trace_of, trace_after. cbn [snd].
    exists (setup_trace b bucket_name prefix delimiter read_log_file
            ++ (DownloadBytes
                  <$> run_to_read b prefix file_type file_prefix delimiter
                        read_log_file)).
    split.
    + apply Forall_app. split.
      * eapply Forall_impl; [apply setup_trace_quiet |]. by intros e [H _].
      * apply Forall_fmap, Forall_forall. done.
    + unfold ledger_update.
      destruct read_log_file; cbn [andb]; [|left; by rewrite app_nil_r].
      destruct (nonempty (run_frames env b prefix file_type file_prefix
                            delimiter true)); cbn [andb];
        [|left; by rewrite app_nil_r].
      destruct (run_pending env b prefix file_type file_prefix delimiter true)
        as [|n ns] eqn:Hp; cbn [nonempty]; [left; by rewrite app_nil_r |].
      right. split; [done |]. exists (n :: ns). split; [done |].
      by rewrite app_assoc.
  - destruct (run_setup_failed env bucket_name prefix file_type file_prefix
                delimiter read_log_file b Hs) as (evs & -> & Hq).
    exists evs. split; [|by left].
    eapply Forall_impl; [exact Hq |]. by intros e [H _].
Qed.

(** X15 -- Where the rows come from.  The routine returns a frame, and every
    row of it is a row of a file read and parsed in that run, with the
    column "file" set to the trailing name of that file (overwriting a
    column of that name the file may have had).  When the set-up succeeds
    the rows are those of the parsed files, in reading order. *)
Theorem rows_provenance (env : Env) (bucket_name prefix file_type : string)
    (file_prefix : option string) (delimiter read_log_file : bool) (b : Bucket) :
  exists df,
    value_of (read_gcs_files_to_dataframes_aserta env bucket_name prefix
                file_type file_prefix delimiter read_log_file b) = Ok df
    /\ (forall row,
          row ∈ rows df ->
          exists blob dfb orig,
            blob ∈ to_read b prefix file_type file_prefix delimiter
                     read_log_file
            /\ file_outcome env b file_type blob = Parsed dfb
            /\ orig ∈ rows dfb
            /\ row = <["file" := Text (PyStr.basename blob)]> orig
            /\ row !! "file" = Some (Text (PyStr.basename blob)))
    /\ (setup_ok env b prefix read_log_file = true ->
        rows df
        = concat (rows <$> parsed_frames env b file_type
                             (to_read b prefix file_type file_prefix delimiter
                                read_log_file))).
Proof.
  destruct (setup_ok env b prefix read_log_file) eqn:Hs.
  - rewrite run_normal by done. unfold value_of. cbn [fst].
    unfold final_frame, run_frames, run_to_read.
    set (frames := parsed_frames env b file_type
                     (to_read b prefix file_type file_prefix delimiter
                        read_log_file)).
    assert (Hrows : rows (match pd_concat frames with
                          | Ok final_df => final_df
                          | Raise => pd_DataFrame
                          end) = concat (rows <$> frames))
      by (by destruct frames).
    eexists. split; [reflexivity |]. split; [|done].
    intros row Hrow. rewrite Hrows in Hrow.
    apply list_elem_of_In, in_concat in Hrow as (rs & Hrs & Hin).
    apply list_elem_of_In, list_elem_of_fmap in Hrs as (f & -> & Hf).
    apply parsed_frames_tagged in Hf as (blob & dfb & Hblob & Hp & ->).
    cbn [setitem rows] in Hin.
    apply list_elem_of_In, list_elem_of_fmap in Hin as (orig & -> & Horig).
    exists blob, dfb, orig. repeat split; try done. apply lookup_insert_eq.
  - destruct (run_setup_failed env bucket_name prefix file_type file_prefix
                delimiter read_log_file b Hs) as (evs & -> & _).
    exists pd_DataFrame. split; [done |]. split; [|done].
    intros row Hrow. by apply elem_of_nil in Hrow.
Qed.

(** X16 -- The ledger parser normalises.  Whatever text the ledger object
    holds, the names read from it are clean (not empty, no surrounding white
    space, no line break), and writing them back joined by line breaks gives
    a text from which the same names are read: reading, writing and reading
    again loses nothing. *)
Theorem parse_log_normal_form (log_content : string) :
  Forall clean (parse_log log_content)
  /\ parse_log (PyStr.join newline (parse_log log_content))
     = parse_log log_content.
Proof.
  assert (H : Forall clean (parse_log log_content)).
  { apply Forall_forall. intros x. apply parse_log_elem_clean. }
  split; [done | by apply parse_log_join_clean].
Qed.

Lemma filter_none {A} (P : A -> Prop) `{!forall x, Decision (P x)}
    (l : list A) :
  Forall (fun x => ~ P x) l -> filter P l = [].
Proof.
  induction 1 as [|x l Hx _ IH]; [done |]. by rewrite filter_cons_False.
Qed.

Lemma filter_all {A} (P : A -> Prop) `{!forall x, Decision (P x)}
    (l : list A) :
  Forall P l -> filter P l = l.
Proof.
  induction 1 as [|x l Hx _ IH]; [done |]. by rewrite filter_cons_True, IH.
Qed.

(** X17 -- What a run downloads.  A blob is downloaded only if it is listed
    under the prefix, passes the candidate filter, is not named like the
    ledger file, and, with the ledger in use, has a trailing name the ledger
    does not hold.  The downloads follow the order of the listing. *)
Theorem downloads_are_candidates (env : Env)
    (bucket_name prefix file_type : string) (file_prefix : option string)
    (delimiter read_log_file : bool) (b : Bucket) :
  (forall blob,
      DownloadBytes blob
      ∈ trace_of (read_gcs_files_to_dataframes_aserta env bucket_name prefix
                    file_type file_prefix delimiter read_log_file b) ->
      blob ∈ listing b prefix delimiter
      /\ is_candidate file_type file_prefix blob = true
      /\ PyStr.basename blob <> log_filename
      /\ (read_log_file = true -> PyStr.basename blob ∉ ledger_names b prefix))
  /\ filter (fun e => is_download e = true)
       (trace_of (read_gcs_files_to_dataframes_aserta env bucket_name prefix
                    file_type file_prefix delimiter read_log_file b))
     `sublist_of` (DownloadBytes <$> listing b prefix delimiter).
Proof.
  destruct (setup_ok env b prefix read_log_file) eqn:Hs.
  - rewrite run_normal by done. unfold trace_of, trace_after. cbn [snd].
    set (tr := run_to_read b prefix file_type file_prefix delimiter
                 read_log_file).
    assert (Hsetup : Forall (fun e => ~ is_download e = true)
                       (setup_trace b bucket_name prefix delimiter
                          read_log_file)).
    { eapply Forall_impl; [apply setup_trace_quiet |].
      intros e [_ H]. by rewrite H. }
    assert (Hup : Forall (fun e => ~ is_download e = true)
                    match ledger_update env b prefix file_type file_prefix
                            delimiter read_log_file with
                    | Some content => [Upload (log_blob_name prefix) content]
                    | None => []
                    end).
    { destruct (ledger_update _ _ _ _ _ _ _); repeat constructor; done. }
    split.
    + intros blob Hd. apply elem_of_app in Hd as [Hd | Hd].
      { rewrite Forall_forall in Hsetup. by destruct (Hsetup _ Hd). }
      apply elem_of_app in Hd as [Hd | Hd].
      2:{ rewrite Forall_forall in Hup. by destruct (Hup _ Hd). }
      apply list_elem_of_fmap in Hd as (blob' & [= <-] & Hin).
      unfold tr, run_to_read, to_read in Hin.
      apply list_elem_of_filter in Hin as [Hkept Hc].
      unfold candidates_of, candidate_files in Hc.
      apply list_elem_of_filter in Hc as [Hcand Hlisted].
      split; [done |]. split; [done |]. split.
      * unfold is_candidate in Hcand.
        apply andb_true_iff in Hcand as [_ Hlog].
        apply negb_true_iff in Hlog. by apply String.eqb_neq.
      * intros ->. unfold kept in Hkept. cbn [andb] in Hkept.
        apply negb_true_iff in Hkept. by apply mem_false.
    + rewrite !filter_app, (filter_none _ _ Hsetup), (filter_none _ _ Hup).
      rewrite app_nil_r. cbn [app].
      rewrite filter_all by (apply Forall_fmap, Forall_forall; done).
      apply fmap_sublist. unfold tr, run_to_read, to_read.
      etrans; [apply sublist_filter |].
      unfold candidates_of, candidate_files. apply sublist_filter.
  - destruct (run_setup_failed env bucket_name prefix file_type file_prefix
                delimiter read_log_file b Hs) as (evs & -> & Hq).
    unfold trace_of. cbn [snd]. split.
    + intros blob Hd. rewrite Forall_forall in Hq.
      by destruct (Hq _ Hd) as [_ Hq'].
    + rewrite filter_none; [apply sublist_nil_l |].
      eapply Forall_impl; [exact Hq |]. intros e [_ H]. by rewrite H.
Qed.

Lemma replace_removes (old new : ascii) (s : string) :
  new <> old -> PyStr.contains old (PyStr.replace old new s) = false.
Proof.
  intros Hne. induction s as [|c s IH]; [done |]. simpl. rewrite IH.
  destruct (Ascii.eqb_spec c old) as [-> | Hc].
  - by destruct (Ascii.eqb_spec new old).
  - by destruct (Ascii.eqb_spec c old).
Qed.

(** X18 -- The name of the ledger object.  Whatever the prefix, the ledger
    object has "file_already_read.txt" as its trailing path segment and no
    backslash in its name; with an empty prefix it sits at the root of the
    bucket; and a prefix written with or without its final "/" designates the
    same ledger object. *)
Theorem ledger_object_name (prefix : string) :
  PyStr.basename (log_blob_name prefix) = log_filename
  /\ PyStr.contains "\"%char (log_blob_name prefix) = false
  /\ log_blob_name EmptyString = log_filename
  /\ (prefix <> EmptyString -> PyStr.endswith prefix "/" = false ->
      log_blob_name (prefix +:+ "/") = log_blob_name prefix).
Proof.
  split; [apply basename_log_blob_name |].
  split; [by apply replace_removes |]. split; [done |].
  intros Hne Hend. unfold log_blob_name, PyStr.os_path_join.
  change (PyStr.startswith log_filename "/") with false. cbv iota.
  rewrite Hend.
  replace (PyStr.endswith (prefix +:+ "/") "/") with true
    by (symmetry; apply endswith_spec; by exists prefix).
  destruct prefix; [done |]. cbn [PyStr.truthy negb orb].
  by rewrite append_assoc.
Qed.

(** X19 -- Only membership in the ledger matters.  Two lists of recorded
    names with the same elements, whatever their order and repetitions, lead
    to the same files to read and the same pending names. *)
Theorem ledger_as_a_set (read_log_file : bool)
    (files_already_read1 files_already_read2 candidates : list string) :
  (forall n, n ∈ files_already_read1 <-> n ∈ files_already_read2) ->
  select_files read_log_file files_already_read1 candidates [] []
  = select_files read_log_file files_already_read2 candidates [] [].
Proof.
  intros Hsame. rewrite !select_files_spec.
  assert (Hkept : forall blob,
            kept read_log_file files_already_read1 blob
            = kept read_log_file files_already_read2 blob).
  { intros blob. unfold kept. do 2 f_equal.
    destruct (PyStr.mem (PyStr.basename blob) files_already_read2) eqn:E.
    - apply mem_true. apply Hsame. by apply mem_true.
    - apply mem_false. intros H. apply Hsame in H. by apply mem_false in E. }
  assert (Hfilter :
    filter (fun blob => kept read_log_file files_already_read1 blob = true)
           candidates
    = filter (fun blob => kept read_log_file files_already_read2 blob = true)
             candidates).
  { apply list_filter_iff. intros blob. by rewrite Hkept. }
  by rewrite Hfilter.
Qed.

(** A ledger read as [b; a; b] and one read as [a; b]. *)
Lemma ledger_as_a_set_witness :
  select_files true ["b.csv"; "a.csv"; "b.csv"]
    ["in/a.csv"; "in/b.csv"; "in/c.csv"] [] []
  = select_files true ["a.csv"; "b.csv"]
      ["in/a.csv"; "in/b.csv"; "in/c.csv"] [] [].
Proof.
  apply ledger_as_a_set. intros n.
  rewrite !elem_of_cons, !elem_of_nil. tauto.
Defined.


Lemma parsed_frames_all_failed (env : Env) (b : Bucket) (file_type : string)
    (files : list string) :
  (forall blob, blob ∈ files ->
     is_parsed (file_outcome env b file_type blob) = false) ->
  parsed_frames env b file_type files = [].
Proof.
  induction files as [|blob rest IH]; intros H; [done |].
  rewrite parsed_frames_cons, IH by (intros ? ?; apply H; by right).
  specialize (H blob ltac:(left)).
  by destruct (file_outcome env b file_type blob).
Qed.

(** X20 -- A run that parses nothing records nothing.  When none of the
    files to read is parsed (every download or parse fails, or the type is
    not supported), the routine returns the empty frame without any upload
    and leaves the bucket as it was, so the same files are to be read by the
    next run. *)
Theorem nothing_parsed_nothing_recorded (env : Env)
    (bucket_name prefix file_type : string) (file_prefix : option string)
    (delimiter read_log_file : bool) (b : Bucket) :
  (forall blob,
      blob ∈ to_read b prefix file_type file_prefix delimiter read_log_file ->
      is_parsed (file_outcome env b file_type blob) = false) ->
  exists evs,
    read_gcs_files_to_dataframes_aserta env bucket_name prefix file_type
      file_prefix delimiter read_log_file b = (Ok pd_DataFrame, b, evs)
    /\ Forall (fun e => is_upload e = false) evs
    /\ to_read
         (bucket_of (read_gcs_files_to_dataframes_aserta env bucket_name prefix
                       file_type file_prefix delimiter read_log_file b))
         prefix file_type file_prefix delimiter read_log_file
       = to_read b prefix file_type file_prefix delimiter read_log_file.
Proof.
  intros Hnone.
  destruct (run_no_frame env bucket_name prefix file_type file_prefix
              delimiter b read_log_file) as (evs & Hrun & Hq).
  { by apply parsed_frames_all_failed. }
  exists evs. split; [done |]. split; [done |]. by rewrite Hrun.
Qed.

(** A bucket whose only file is corrupt. *)
Lemma nothing_parsed_nothing_recorded_witness :
  exists evs,
    read_gcs_files_to_dataframes_aserta sample_env "bucket" "data" ".csv"
      None false true [("data/bad.csv", "corrupt")]
    = (Ok pd_DataFrame, [("data/bad.csv", "corrupt")], evs)
    /\ Forall (fun e => is_upload e = false) evs
    /\ to_read
         (bucket_of (read_gcs_files_to_dataframes_aserta sample_env "bucket"
                       "data" ".csv" None false true
                       [("data/bad.csv", "corrupt")]))
         "data" ".csv" None false true
       = to_read [("data/bad.csv", "corrupt")] "data" ".csv" None false true.
Proof.
  apply nothing_parsed_nothing_recorded.
  intros blob Hin. change (blob ∈ ["data/bad.csv"]) in Hin.
  apply list_elem_of_singleton in Hin as ->. reflexivity.
Defined.
